(** * The message-matrix composer of vestapy

    A shallow embedding of [src/main.py]: the colour table, the encoding of a
    line of text into character codes, the gradient and solid backgrounds, the
    greedy word wrap, the justification of the lines and the overlay of the
    text on the background, followed by the properties of the composer.

    Conventions of the embedding.
    - A Python [int] is a [Z]; [len] is [Z.of_nat] of a length; [//] on
      integers is [Z.div], which floors as Python does.
    - A Python [float] is a primitive binary64 float of the kernel, so the
      gradient is computed with the very roundings of the interpreter.
    - A Python [str] is a [string] whose characters are the code points below
      256; [str.lower], [str.upper] and [str.split] follow Python on that
      range.
    - A list cell that is [None] or an [int] is an [option Z].
    - An exception is the [Raise] result of the [result] monad. *)

From Stdlib Require Import ZArith Uint63 Ascii.
From Stdlib Require Import Floats.PrimFloat Floats.SpecFloat Floats.FloatOps.
From stdpp Require Import base decidable option list gmap strings.

Open Scope Z_scope.

(** ** Exceptions *)

Inductive exn : Set :=
  | IndexError
  | OverflowError
  | ValueError.

Inductive result (A : Type) : Type :=
  | Ok (a : A)
  | Raise (e : exn).

Arguments Ok {A} a.
Arguments Raise {A} e.

Definition bind {A B : Type} (m : result A) (k : A -> result B) : result B :=
  match m with
  | Ok a => k a
  | Raise e => Raise e
  end.

Notation "x <- m ;; k" := (bind m (fun x => k))
  (at level 100, m at next level, right associativity).

(** [[f(x) for x in l]] where [f] may raise. *)
Fixpoint for_each {A B : Type} (f : A -> result B) (l : list A) : result (list B) :=
  match l with
  | [] => Ok []
  | x :: l' => y <- f x ;; ys <- for_each f l' ;; Ok (y :: ys)
  end.

(** ** Python built-ins used by the composer *)

Module Py.

(** [range(n)] *)
Definition range (n : Z) : list Z := seqZ 0 n.

(** [[x] * n]: empty when [n] is negative. *)
Definition repeat {A : Type} (x : A) (n : Z) : list A := replicate (Z.to_nat n) x.

(** [len(s)] of a string and of a list. *)
Definition len (s : string) : Z := Z.of_nat (String.length s).
Definition llen {A : Type} (l : list A) : Z := Z.of_nat (length l).

(** Truth value of a string: non-empty. *)
Definition truthy (s : string) : bool :=
  match s with
  | EmptyString => false
  | String _ _ => true
  end.

(** [d.get(k, default)] *)
Definition get (d : gmap string Z) (k : string) (dflt : Z) : Z := default dflt (d !! k).

(** [l[i]] and [l[i] = x] for a non-negative index: out of range raises. *)
Definition getitem {A : Type} (l : list A) (i : nat) : result A :=
  match l !! i with
  | Some x => Ok x
  | None => Raise IndexError
  end.

Definition setitem {A : Type} (l : list A) (i : nat) (x : A) : result (list A) :=
  if decide (i < length l)%nat then Ok (<[i := x]> l) else Raise IndexError.

(** [c.isspace()] on the code points below 256: TAB to CR, FS to US, the
    space, NEL and the no-break space. *)
Definition isspace (c : ascii) : bool :=
  let n := N_of_ascii c in
  ((9 <=? n) && (n <=? 13) || (28 <=? n) && (n <=? 32) || (n =? 133) || (n =? 160))%N.

(** [c.lower()]: the capital letters A-Z and the capitals of Latin-1 (all of
    [0xC0..0xDE] but the multiplication sign) move up by 32. *)
Definition lower_char (c : ascii) : ascii :=
  let n := N_of_ascii c in
  if ((65 <=? n) && (n <=? 90) || (192 <=? n) && (n <=? 222) && negb (n =? 215))%N
  then ascii_of_N (n + 32) else c.

Fixpoint lower (s : string) : string :=
  match s with
  | EmptyString => EmptyString
  | String c s' => String (lower_char c) (lower s')
  end.

(** [c.upper()], when it is a string of code points below 256: the small
    letters a-z and those of Latin-1 (all of [0xE0..0xFE] but the division
    sign) move down by 32 and the sharp s becomes two letters. The micro sign
    and the y with diaeresis have their capitals above 255 ([U+039C] and
    [U+0178]): their upper-case form is no string of the model, hence no key
    of a table over these strings. *)
Definition upper_char (c : ascii) : option string :=
  let n := N_of_ascii c in
  if ((97 <=? n) && (n <=? 122) || (224 <=? n) && (n <=? 254) && negb (n =? 247))%N
  then Some (String (ascii_of_N (n - 32)) EmptyString)
  else if (n =? 223)%N then Some "SS"
  else if ((n =? 181) || (n =? 255))%N then None
  else Some (String c EmptyString).

(** [s.split()]: the maximal runs of characters that are not white space.
    [scan s] is the run that starts at the head of [s] (empty when [s]
    starts with white space) and the words after it. *)
Definition cons_word (w : string) (ws : list string) : list string :=
  if truthy w then w :: ws else ws.

Fixpoint scan (s : string) : string * list string :=
  match s with
  | EmptyString => (EmptyString, [])
  | String c s' =>
      let '(w, ws) := scan s' in
      if isspace c then (EmptyString, cons_word w ws) else (String c w, ws)
  end.

Definition split (s : string) : list string :=
  let '(w, ws) := scan s in cons_word w ws.

(** [float(z)] for an integer below [2^53] in size, where it is exact. *)
Definition float_of_int (z : Z) : float :=
  if z <? 0 then PrimFloat.opp (PrimFloat.of_uint63 (Uint63.of_Z (- z)))
  else PrimFloat.of_uint63 (Uint63.of_Z z).

(** [int(x)]: truncation towards zero; an infinity raises [OverflowError]
    and a NaN raises [ValueError]. *)
Definition int_of_float (x : float) : result Z :=
  match Prim2SF x with
  | S754_zero _ => Ok 0
  | S754_infinity _ => Raise OverflowError
  | S754_nan => Raise ValueError
  | S754_finite s m e =>
      let a := if 0 <=? e then Z.pos m * 2 ^ e else Z.pos m / 2 ^ (- e) in
      Ok (if s then - a else a)
  end.

End Py.

(** ** The tables *)

Definition COLOR_CODES : gmap string Z :=
  <["red" := 63]> (<["orange" := 64]> (<["yellow" := 65]> (<["green" := 66]>
  (<["blue" := 67]> (<["violet" := 68]> (<["white" := 69]> (<["black" := 70]> ∅))))))).

Inductive justification : Set :=
  | JLeft
  | JRight
  | JCenter.

Abbreviation matrix := (list (list Z)).

(** ** The composer

    [CHARACTER_CODES] is read from [character_codes.json] when the module is
    loaded; the composer is embedded over any such table. *)

Section Vestaboard.

Variable CHARACTER_CODES : gmap string Z.

(** [CHARACTER_CODES.get(char.upper(), 0) if char != " " else 0]: an
    upper-case form that is no key of the table gives the default. *)
Definition char_code (char : ascii) : Z :=
  if decide (char <> " "%char) then
    match Py.upper_char char with
    | Some key => Py.get CHARACTER_CODES key 0
    | None => 0
    end
  else 0.

Definition convert_text_to_codes (text : string) : list Z :=
  char_code <$> String.list_ascii_of_string text.

(** *** Backgrounds *)

Definition gradient_code (start_code end_code row col : Z) : result Z :=
  let ratio :=
    PrimFloat.div (Py.float_of_int (row * 22 + col)) (Py.float_of_int (6 * 22 - 1)) in
  Py.int_of_float
    (PrimFloat.add (Py.float_of_int start_code)
       (PrimFloat.mul ratio (Py.float_of_int (end_code - start_code)))).

Definition create_gradient_background (start_color end_color : string) : result matrix :=
  let start_code := Py.get COLOR_CODES (Py.lower start_color) 70 in
  let end_code := Py.get COLOR_CODES (Py.lower end_color) 70 in
  for_each
    (fun row => for_each (fun col => gradient_code start_code end_code row col) (Py.range 22))
    (Py.range 6).

Definition default_fill_code (color : option string) : Z :=
  match color with
  | Some color => if Py.truthy color then Py.get COLOR_CODES (Py.lower color) 0 else 0
  | None => 0
  end.

Definition background_matrix (color : option string) (gradient : option (string * string))
  : result matrix :=
  match gradient with
  | Some (start_color, end_color) => create_gradient_background start_color end_color
  | None => Ok ((fun _ => (fun _ => default_fill_code color) <$> Py.range 22) <$> Py.range 6)
  end.

(** *** Word wrap: the state of the loop is [(lines, current_line)]. *)

Definition wrap_step (st : list string * string) (word : string) : list string * string :=
  let '(lines, current_line) := st in
  if decide (Py.len current_line + Py.len word + (if Py.truthy current_line then 1 else 0) <= 22)
  then (lines, current_line +:+ (if Py.truthy current_line then " " else "") +:+ word)
  else (lines ++ [current_line], word).

Definition wrap_words (words : list string) : list string :=
  let '(lines, current_line) := foldl wrap_step ([], "") words in
  if Py.truthy current_line then lines ++ [current_line] else lines.

Definition wrap (message : string) : list string := wrap_words (Py.split message).

(** *** Justification *)

Definition justify_line (justify : justification) (line : string) : list (option Z) :=
  let codes := convert_text_to_codes line in
  match justify with
  | JLeft => (Some <$> codes) ++ Py.repeat None (22 - Py.llen codes)
  | JRight => Py.repeat None (22 - Py.llen codes) ++ (Some <$> codes)
  | JCenter =>
      let padding := (22 - Py.llen codes) `div` 2 in
      Py.repeat None padding ++ (Some <$> codes)
        ++ Py.repeat None (22 - Py.llen codes - padding)
  end.

Definition center_vertically (justify : justification)
    (justified_lines : list (list (option Z))) : list (list (option Z)) :=
  match justify with
  | JCenter =>
      let top_padding := (6 - Py.llen justified_lines) `div` 2 in
      Py.repeat (Py.repeat None 22) top_padding ++ justified_lines
        ++ Py.repeat (Py.repeat None 22) (6 - Py.llen justified_lines - top_padding)
  | _ => justified_lines
  end.

Definition justified_lines (message : string) (justify : justification)
  : list (list (option Z)) :=
  center_vertically justify (justify_line justify <$> take 6 (wrap message)).

(** *** Overlay

    The rows of [message_matrix] are fresh copies of the rows of the
    background, so a store into one row is an update of that row alone. *)

Definition set_cell (message_matrix : matrix) (i j : nat) (code : Z) : result matrix :=
  row <- Py.getitem message_matrix i ;;
  row' <- Py.setitem row j code ;;
  Ok (<[i := row']> message_matrix).

(** The inner loop over [enumerate(justified_line)], from column [j] on. *)
Fixpoint overlay_line (message_matrix : matrix) (i j : nat) (justified_line : list (option Z))
  : result matrix :=
  match justified_line with
  | [] => Ok message_matrix
  | None :: rest => overlay_line message_matrix i (S j) rest
  | Some code :: rest =>
      m <- set_cell message_matrix i j code ;; overlay_line m i (S j) rest
  end.

(** The outer loop over [enumerate(justified_lines)], from row [i] on. *)
Fixpoint overlay (message_matrix : matrix) (i : nat) (lines : list (list (option Z)))
  : result matrix :=
  match lines with
  | [] => Ok message_matrix
  | justified_line :: rest =>
      m <- overlay_line message_matrix i 0 justified_line ;; overlay m (S i) rest
  end.

Definition create_message_matrix (message : string) (color : option string)
    (justify : justification) (gradient : option (string * string)) : result matrix :=
  background <- background_matrix color gradient ;;
  overlay background 0 (justified_lines message justify).

End Vestaboard.

(** * Vocabulary of the properties *)

(** The entry of a matrix at a row and a column, when there is one. *)
Definition cell (m : matrix) (row col : nat) : option Z :=
  m !! row ≫= fun r => r !! col.

(** A matrix of 6 rows of 22 cells. *)
Definition well_shaped (m : matrix) : Prop :=
  length m = 6%nat /\ Forall (fun row => length row = 22%nat) m.

(** The gradient in integer arithmetic: the floor of the linear ramp from
    [start_code] to [end_code] at the position [row * 22 + col] of 131. *)
Definition ramp (start_code end_code row col : Z) : Z :=
  start_code + ((row * 22 + col) * (end_code - start_code)) `div` 131.

Definition ramp_matrix (start_code end_code : Z) : matrix :=
  (fun row => (fun col => ramp start_code end_code row col) <$> Py.range 22) <$> Py.range 6.

Definition same_result (r : result Z) (z : Z) : bool :=
  match r with
  | Ok y => y =? z
  | Raise _ => false
  end.


(** The characters of a string; a word has one character at least and no
    white space; a blank string has only white space. *)
Definition chars (s : string) : list ascii := String.list_ascii_of_string s.

Definition is_word (w : string) : bool :=
  Py.truthy w && forallb (fun c => negb (Py.isspace c)) (chars w).

Definition blank (s : string) : bool := forallb Py.isspace (chars s).

(** The words of a message joined by single spaces. *)
Definition join (words : list string) : string := String.concat " " words.

(** Every retained line of the message fits the width of the board. *)
Definition fits (message : string) : bool :=
  forallb (fun line => Py.len line <=? 22) (take 6 (wrap message)).

(** A background row seen through a justified line: a cell of the line that
    holds a code replaces the cell below it, [None] keeps it. *)
Fixpoint paint (row : list Z) (line : list (option Z)) : list Z :=
  match row, line with
  | b :: row', c :: line' => default b c :: paint row' line'
  | _, _ => row
  end.

(** A justified line that is a run of codes wider than the board. *)
Definition overlong (line : list (option Z)) : Prop :=
  exists codes : list Z, line = Some <$> codes /\ (22 < length codes)%nat.

(** The words of a list of lines, line after line. *)
Definition words_of (lines : list string) : list string := concat (Py.split <$> lines).

(** The layout of the text on the board: the column where a line of [n]
    characters starts, the row where a block of [n] lines starts, and the
    character, if any, that stands at row [r] and column [c]. *)
Definition offset (justify : justification) (n : nat) : nat :=
  match justify with
  | JLeft => 0
  | JRight => 22 - n
  | JCenter => (22 - n) / 2
  end.

Definition top (justify : justification) (n : nat) : nat :=
  match justify with
  | JCenter => (6 - n) / 2
  | _ => 0
  end.

Definition text_char (message : string) (justify : justification) (r c : nat) : option ascii :=
  let lines := take 6 (wrap message) in
  if decide (top justify (length lines) <= r)%nat then
    match lines !! (r - top justify (length lines))%nat with
    | Some line =>
        if decide (offset justify (String.length line) <= c)%nat
        then chars line !! (c - offset justify (String.length line))%nat
        else None
    | None => None
    end
  else None.

(** * Properties *)

(** ** The result monad *)

Lemma for_each_ok {A B : Type} (f : A -> result B) (g : A -> B) (l : list A) :
  (forall x, x ∈ l -> f x = Ok (g x)) -> for_each f l = Ok (g <$> l).
Proof.
  induction l as [|x l IH]; intros Hf; simpl.
  - reflexivity.
  - rewrite (Hf x) by apply list_elem_of_here. simpl.
    rewrite IH; [reflexivity|].
    intros y Hy. apply Hf. now apply list_elem_of_further.
Qed.

(** ** The colour table *)

Lemma COLOR_CODES_range (name : string) (code : Z) :
  COLOR_CODES !! name = Some code -> 63 <= code <= 70.
Proof.
  unfold COLOR_CODES. intros H.
  repeat (apply lookup_insert_Some in H as [[_ <-]|[_ H]]; [lia|]).
  now rewrite lookup_empty in H.
Qed.

Lemma color_or_black_range (name : string) : 63 <= Py.get COLOR_CODES name 70 <= 70.
Proof.
  unfold Py.get. destruct (COLOR_CODES !! name) as [code|] eqn:E; simpl.
  - eauto using COLOR_CODES_range.
  - lia.
Qed.

(** ** The gradient: the float computation against the integer formula *)

(** The float computation agrees with [ramp] for every pair of codes of the
    colour table at every cell: [8 * 8 * 132] checks, run by the virtual
    machine. *)
Lemma gradient_code_table_ok :
  forallb (fun a => forallb (fun b => forallb (fun row => forallb (fun col =>
    same_result (gradient_code a b row col) (ramp a b row col))
    (seqZ 0 22)) (seqZ 0 6)) (seqZ 63 8)) (seqZ 63 8) = true.
Proof. vm_compute. reflexivity. Qed.

Lemma forallb_seqZ (p : Z -> bool) (lo n x : Z) :
  forallb p (seqZ lo n) = true -> lo <= x < lo + n -> p x = true.
Proof.
  intros Hall Hx. rewrite forallb_forall in Hall. apply Hall.
  now apply list_elem_of_In, elem_of_seqZ.
Qed.

Lemma gradient_code_checked (a b row col : Z) :
  63 <= a < 63 + 8 -> 63 <= b < 63 + 8 -> 0 <= row < 0 + 6 -> 0 <= col < 0 + 22 ->
  same_result (gradient_code a b row col) (ramp a b row col) = true.
Proof.
  intros Ha Hb Hrow Hcol.
  exact (forallb_seqZ _ _ _ col
           (forallb_seqZ _ _ _ row
              (forallb_seqZ _ _ _ b
                 (forallb_seqZ _ _ _ a gradient_code_table_ok Ha) Hb) Hrow) Hcol).
Qed.

Lemma same_result_true (r : result Z) (z : Z) : same_result r z = true -> r = Ok z.
Proof.
  destruct r as [y|e]; simpl; intros H; [|discriminate].
  apply Z.eqb_eq in H. now subst.
Qed.

Lemma gradient_code_ramp (a b row col : Z) :
  63 <= a <= 70 -> 63 <= b <= 70 -> 0 <= row < 6 -> 0 <= col < 22 ->
  gradient_code a b row col = Ok (ramp a b row col).
Proof.
  intros Ha Hb Hrow Hcol. apply same_result_true, gradient_code_checked; lia.
Qed.

Lemma create_gradient_background_ramp (start_color end_color : string) :
  create_gradient_background start_color end_color
  = Ok (ramp_matrix (Py.get COLOR_CODES (Py.lower start_color) 70)
                    (Py.get COLOR_CODES (Py.lower end_color) 70)).
Proof.
  unfold create_gradient_background, ramp_matrix.
  apply for_each_ok. intros row Hrow. apply elem_of_seqZ in Hrow.
  apply for_each_ok. intros col Hcol. apply elem_of_seqZ in Hcol.
  apply gradient_code_ramp; auto using color_or_black_range; lia.
Qed.

Lemma ramp_matrix_cell (a b : Z) (row col : nat) :
  (row < 6)%nat -> (col < 22)%nat ->
  cell (ramp_matrix a b) row col = Some (ramp a b (Z.of_nat row) (Z.of_nat col)).
Proof.
  intros Hrow Hcol. unfold cell, ramp_matrix, Py.range.
  rewrite list_lookup_fmap, lookup_seqZ_lt by lia. cbn [fmap option_fmap option_map mbind option_bind].
  rewrite list_lookup_fmap, lookup_seqZ_lt by lia. cbn [fmap option_fmap option_map].
  do 2 f_equal; lia.
Qed.

(** ** Strings *)

Lemma str_app_cons (c : ascii) (s t : string) : String c s +:+ t = String c (s +:+ t).
Proof. reflexivity. Qed.

Lemma str_app_empty_l (s : string) : "" +:+ s = s.
Proof. reflexivity. Qed.

Lemma str_app_empty_r (s : string) : s +:+ "" = s.
Proof. induction s as [|c s IH]; [reflexivity|now rewrite str_app_cons, IH]. Qed.

Lemma str_app_assoc (a b c : string) : (a +:+ b) +:+ c = a +:+ b +:+ c.
Proof. induction a as [|x a IH]; [reflexivity|now rewrite !str_app_cons, IH]. Qed.

Lemma len_app (a b : string) : Py.len (a +:+ b) = Py.len a + Py.len b.
Proof.
  unfold Py.len. induction a as [|x a IH]; [reflexivity|].
  rewrite str_app_cons. simpl String.length. rewrite !Nat2Z.inj_succ, IH. lia.
Qed.

Lemma len_nonneg (s : string) : 0 <= Py.len s.
Proof. unfold Py.len. lia. Qed.

Lemma truthy_len (s : string) : Py.truthy s = true <-> 0 < Py.len s.
Proof.
  unfold Py.len. destruct s; simpl; split; intros H; try reflexivity; try discriminate; lia.
Qed.

Lemma not_truthy (s : string) : Py.truthy s = false -> s = "".
Proof. destruct s; [reflexivity|discriminate]. Qed.

Lemma len_chars (s : string) : Z.of_nat (length (chars s)) = Py.len s.
Proof.
  unfold Py.len, chars. f_equal.
  induction s as [|c s IH]; simpl; [reflexivity|now rewrite IH].
Qed.

(** ** [split] *)

Lemma cons_word_app (w : string) (ws rest : list string) :
  Py.cons_word w (ws ++ rest) = Py.cons_word w ws ++ rest.
Proof. unfold Py.cons_word. now destruct (Py.truthy w). Qed.

Lemma scan_space_app (a : string) (c : ascii) (b : string) :
  Py.isspace c = true ->
  Py.scan (a +:+ String c b) = ((Py.scan a).1, (Py.scan a).2 ++ Py.split b).
Proof.
  intros Hc. induction a as [|x a IH].
  - rewrite str_app_empty_l. simpl. unfold Py.split. destruct (Py.scan b) as [w ws].
    now rewrite Hc.
  - rewrite str_app_cons. simpl. rewrite IH. destruct (Py.scan a) as [w ws]. simpl.
    destruct (Py.isspace x); simpl; [|reflexivity].
    now rewrite cons_word_app.
Qed.

Lemma split_space_app (a : string) (c : ascii) (b : string) :
  Py.isspace c = true -> Py.split (a +:+ String c b) = Py.split a ++ Py.split b.
Proof.
  intros Hc. unfold Py.split at 1 2. rewrite scan_space_app by assumption.
  destruct (Py.scan a) as [w ws]. simpl. apply cons_word_app.
Qed.

Lemma scan_word (w : string) :
  forallb (fun c => negb (Py.isspace c)) (chars w) = true -> Py.scan w = (w, []).
Proof.
  induction w as [|c w IH]; simpl; [reflexivity|].
  intros H. apply andb_prop in H as [Hc Hw]. rewrite (IH Hw).
  now destruct (Py.isspace c).
Qed.

Lemma split_word (w : string) : is_word w = true -> Py.split w = [w].
Proof.
  unfold is_word, Py.split. intros H. apply andb_prop in H as [Ht Hw].
  rewrite (scan_word _ Hw). unfold Py.cons_word. now rewrite Ht.
Qed.

Lemma scan_blank (s : string) : blank s = true -> Py.scan s = ("", []).
Proof.
  unfold blank. induction s as [|c s IH]; simpl; [reflexivity|].
  intros H. apply andb_prop in H as [Hc Hs]. now rewrite (IH Hs), Hc.
Qed.

Lemma split_blank (s : string) : blank s = true -> Py.split s = [].
Proof. intros H. unfold Py.split. now rewrite (scan_blank _ H). Qed.

Lemma cons_word_truthy (w : string) (ws : list string) :
  Forall (fun w => Py.truthy w = true) ws ->
  Forall (fun w => Py.truthy w = true) (Py.cons_word w ws).
Proof.
  intros H. unfold Py.cons_word. destruct (Py.truthy w) eqn:E; [|assumption].
  now constructor.
Qed.

Lemma scan_truthy (s : string) : Forall (fun w => Py.truthy w = true) (Py.scan s).2.
Proof.
  induction s as [|c s IH]; simpl; [constructor|].
  destruct (Py.scan s) as [w ws]. simpl in IH.
  destruct (Py.isspace c); simpl; [|assumption].
  now apply cons_word_truthy.
Qed.

Lemma split_truthy (s : string) : Forall (fun w => Py.truthy w = true) (Py.split s).
Proof.
  unfold Py.split. pose proof (scan_truthy s) as H.
  destruct (Py.scan s) as [w ws]. now apply cons_word_truthy.
Qed.

(** ** The word wrap *)

Lemma join_snoc (ws : list string) (w : string) :
  ws <> [] -> join (ws ++ [w]) = join ws +:+ " " +:+ w.
Proof.
  unfold join. induction ws as [|x ws IH]; [congruence|intros _].
  destruct ws as [|y ws].
  - reflexivity.
  - change (String.concat " " ((x :: y :: ws) ++ [w]))
      with (x +:+ " " +:+ String.concat " " ((y :: ws) ++ [w])).
    rewrite IH by congruence.
    change (String.concat " " (x :: y :: ws))
      with (x +:+ " " +:+ String.concat " " (y :: ws)).
    now rewrite !str_app_assoc.
Qed.

Lemma join_truthy (ws : list string) :
  ws <> [] -> Forall (fun w => Py.truthy w = true) ws -> Py.truthy (join ws) = true.
Proof.
  intros Hne Hws. destruct ws as [|x ws]; [congruence|].
  apply Forall_cons in Hws as [Hx _].
  unfold join. destruct x as [|c x]; [discriminate|].
  now destruct ws.
Qed.

Lemma wrap_one_line (ws : list string) :
  Forall (fun w => Py.truthy w = true) ws -> Py.len (join ws) <= 22 ->
  foldl wrap_step ([], "") ws = ([], join ws).
Proof.
  induction ws as [|w ws IH] using rev_ind; intros Hws Hlen; [reflexivity|].
  apply Forall_app in Hws as [Hws Hw].
  rewrite foldl_snoc. destruct (decide (ws = [])) as [->|Hne].
  - change (Py.len w <= 22) in Hlen. simpl. change (Py.len "") with 0.
    rewrite decide_True by lia. reflexivity.
  - rewrite join_snoc, !len_app in * by assumption.
    pose proof (len_nonneg w). change (Py.len " ") with 1 in *.
    rewrite IH by (auto; lia). simpl.
    rewrite (join_truthy ws) by assumption.
    rewrite decide_True by lia. reflexivity.
Qed.

Lemma wrap_words_one_line (ws : list string) :
  ws <> [] -> Forall (fun w => Py.truthy w = true) ws -> Py.len (join ws) <= 22 ->
  wrap_words ws = [join ws].
Proof.
  intros Hne Hws Hlen. unfold wrap_words. rewrite wrap_one_line by assumption.
  now rewrite join_truthy.
Qed.

(** A message of words that fit has lines that fit. *)
Lemma wrap_step_fits (st : list string * string) (word : string) :
  Forall (fun l => Py.len l <= 22) st.1 -> Py.len st.2 <= 22 -> Py.len word <= 22 ->
  Forall (fun l => Py.len l <= 22) (wrap_step st word).1 /\ Py.len (wrap_step st word).2 <= 22.
Proof.
  destruct st as [lines current_line]. simpl. intros Hl Hc Hw.
  case_decide as Hfit; simpl.
  - split; [assumption|]. rewrite !len_app.
    destruct (Py.truthy current_line); [change (Py.len " ") with 1|change (Py.len "") with 0]; lia.
  - split; [|assumption]. apply Forall_app. split; [assumption|]. now repeat constructor.
Qed.

Lemma wrap_words_fit (ws : list string) :
  Forall (fun w => Py.len w <= 22) ws -> Forall (fun l => Py.len l <= 22) (wrap_words ws).
Proof.
  intros Hws. unfold wrap_words.
  assert (Forall (fun l => Py.len l <= 22) (foldl wrap_step ([], "") ws).1
          /\ Py.len (foldl wrap_step ([], "") ws).2 <= 22) as [Hl Hc].
  { induction ws as [|w ws IH] using rev_ind.
    - simpl. split; [constructor|]. unfold Py.len. simpl. lia.
    - apply Forall_app in Hws as [Hws Hw]. apply Forall_cons in Hw as [Hw _].
      rewrite foldl_snoc. destruct (IH Hws). now apply wrap_step_fits. }
  destruct (foldl wrap_step ([], "") ws) as [lines current_line]. simpl in *.
  destruct (Py.truthy current_line); [|assumption].
  apply Forall_app. split; [assumption|]. now repeat constructor.
Qed.

(** ** Encoding and justification *)

Section Justify.

Variable CHARACTER_CODES : gmap string Z.

Abbreviation codes_of := (convert_text_to_codes CHARACTER_CODES).
Abbreviation justified := (justify_line CHARACTER_CODES).

Lemma llen_codes (line : string) : Py.llen (codes_of line) = Py.len line.
Proof.
  unfold Py.llen, convert_text_to_codes. rewrite length_fmap. apply len_chars.
Qed.

(** The encoding keeps every character of the line: nothing is cut. *)
Lemma length_codes (line : string) : length (codes_of line) = String.length line.
Proof. pose proof (llen_codes line) as H. unfold Py.llen, Py.len in H. lia. Qed.

Lemma length_repeat {A : Type} (x : A) (n : Z) : length (Py.repeat x n) = Z.to_nat n.
Proof. unfold Py.repeat. apply length_replicate. Qed.

Lemma justify_line_fit (justify : justification) (line : string) :
  Py.len line <= 22 -> length (justified justify line) = 22%nat.
Proof.
  intros Hlen. unfold justify_line. rewrite llen_codes.
  pose proof (length_codes line) as Hc. pose proof (len_nonneg line) as H0.
  unfold Py.len in *.
  destruct justify; rewrite ?length_app, ?length_repeat, ?length_fmap, Hc; try lia.
  assert (0 <= (22 - Z.of_nat (String.length line)) `div` 2
          <= 22 - Z.of_nat (String.length line)).
  { split; [apply Z.div_pos; lia|]. apply Z.div_le_upper_bound; lia. }
  lia.
Qed.

(** A line wider than the board gets no padding at all. *)
Lemma justify_line_over (justify : justification) (line : string) :
  22 < Py.len line -> justified justify line = Some <$> codes_of line.
Proof.
  intros Hlen. unfold justify_line. rewrite llen_codes.
  assert (Hrep : forall n, n <= 0 -> Py.repeat (@None Z) n = []).
  { intros n Hn. unfold Py.repeat. now replace (Z.to_nat n) with 0%nat by lia. }
  destruct justify.
  - rewrite Hrep by lia. apply app_nil_r.
  - rewrite Hrep by lia. reflexivity.
  - assert ((22 - Py.len line) `div` 2 < 0) by (apply Z.div_lt_upper_bound; lia).
    assert (2 * ((22 - Py.len line) `div` 2) >= 22 - Py.len line - 1).
    { pose proof (Z.mod_pos_bound (22 - Py.len line) 2 ltac:(lia)).
      pose proof (Z.div_mod (22 - Py.len line) 2 ltac:(lia)). lia. }
    rewrite !Hrep by lia. simpl. apply app_nil_r.
Qed.

End Justify.

(** ** The overlay *)

Lemma well_shaped_insert (m : matrix) (i : nat) (row : list Z) :
  well_shaped m -> length row = 22%nat -> well_shaped (<[i := row]> m).
Proof.
  intros [Hlen Hrows] Hrow. split.
  - now rewrite length_insert.
  - now apply Forall_insert.
Qed.

Lemma well_shaped_lookup (m : matrix) (i : nat) :
  well_shaped m -> (i < 6)%nat -> exists row, m !! i = Some row /\ length row = 22%nat.
Proof.
  intros [Hlen Hrows] Hi.
  destruct (lookup_lt_is_Some_2 m i ltac:(lia)) as [row Hrow].
  exists row. split; [assumption|].
  rewrite Forall_forall in Hrows. apply Hrows. eapply list_elem_of_lookup_2, Hrow.
Qed.

Lemma length_paint (row : list Z) (line : list (option Z)) :
  length (paint row line) = length row.
Proof.
  revert line. induction row as [|b row IH]; intros [|c line]; simpl; auto.
Qed.

Lemma set_cell_ok (m : matrix) (i j : nat) (row : list Z) (code : Z) :
  m !! i = Some row -> (j < length row)%nat ->
  set_cell m i j code = Ok (<[i := <[j := code]> row]> m).
Proof.
  intros Hrow Hj. unfold set_cell, Py.getitem, Py.setitem. rewrite Hrow. simpl.
  now rewrite decide_True by assumption.
Qed.

Lemma set_cell_raise (m : matrix) (i j : nat) (row : list Z) (code : Z) :
  m !! i = Some row -> (length row <= j)%nat -> set_cell m i j code = Raise IndexError.
Proof.
  intros Hrow Hj. unfold set_cell, Py.getitem, Py.setitem. rewrite Hrow. simpl.
  now rewrite decide_False by lia.
Qed.

(** The inner loop writes the line over the row from column [j] on. *)
Lemma overlay_line_ok (line : list (option Z)) :
  forall (m : matrix) (i j : nat) (row : list Z),
    m !! i = Some row -> (j + length line <= length row)%nat ->
    overlay_line m i j line = Ok (<[i := take j row ++ paint (drop j row) line]> m).
Proof.
  induction line as [|c line IH]; intros m i j row Hrow Hj; simpl in *.
  - assert (paint (drop j row) [] = drop j row) as -> by now destruct (drop j row).
    now rewrite take_drop, list_insert_id.
  - destruct (lookup_lt_is_Some_2 row j ltac:(lia)) as [b Hb].
    rewrite (drop_S _ _ _ Hb). simpl.
    destruct c as [code|].
    + rewrite (set_cell_ok _ _ _ _ _ Hrow) by lia. simpl.
      rewrite (IH _ i (S j) (<[j := code]> row)).
      * rewrite list_insert_insert_eq. f_equal. f_equal.
        rewrite drop_insert_lt by lia.
        rewrite (take_S_r _ _ code) by (apply list_lookup_insert_eq; lia).
        rewrite take_insert_ge by lia. now rewrite <- app_assoc.
      * apply list_lookup_insert_eq. eapply lookup_lt_Some, Hrow.
      * rewrite length_insert. lia.
    + rewrite (IH _ i (S j) row Hrow) by lia.
      rewrite (take_S_r _ _ b Hb). now rewrite <- app_assoc.
Qed.

Lemma overlay_line_whole (line : list (option Z)) (m : matrix) (i : nat) (row : list Z) :
  m !! i = Some row -> (length line <= length row)%nat ->
  overlay_line m i 0 line = Ok (<[i := paint row line]> m).
Proof. intros Hrow Hlen. now rewrite (overlay_line_ok line m i 0 row). Qed.

(** A line of codes that runs past the end of the row stops the loop. *)
Lemma overlay_line_raise (codes : list Z) :
  forall (m : matrix) (i j : nat) (row : list Z),
    m !! i = Some row -> (j <= length row < j + length codes)%nat ->
    overlay_line m i j (Some <$> codes) = Raise IndexError.
Proof.
  induction codes as [|code codes IH]; intros m i j row Hrow Hj; simpl in *; [lia|].
  destruct (decide (j < length row)%nat) as [Hin|Hout].
  - rewrite (set_cell_ok _ _ _ _ _ Hrow) by assumption. simpl.
    apply (IH _ i (S j) (<[j := code]> row)).
    + apply list_lookup_insert_eq. eapply lookup_lt_Some, Hrow.
    + rewrite length_insert. lia.
  - now rewrite (set_cell_raise _ _ _ _ _ Hrow) by lia.
Qed.

(** A transparent line writes nothing, whatever its length. *)
Lemma overlay_line_transparent (n : nat) (m : matrix) (i j : nat) :
  overlay_line m i j (replicate n None) = Ok m.
Proof. revert j. induction n as [|n IH]; intros j; simpl; auto. Qed.

Lemma overlay_transparent (k n : nat) (m : matrix) (i : nat) :
  overlay m i (replicate k (replicate n None)) = Ok m.
Proof.
  revert i. induction k as [|k IH]; intros i; simpl; [reflexivity|].
  rewrite overlay_line_transparent. simpl. apply IH.
Qed.

Lemma overlay_ok (lines : list (list (option Z))) :
  forall (m : matrix) (i : nat),
    well_shaped m -> (i + length lines <= 6)%nat ->
    Forall (fun line => length line = 22%nat) lines ->
    exists m', overlay m i lines = Ok m' /\ well_shaped m'.
Proof.
  induction lines as [|line lines IH]; intros m i Hm Hi Hlines; simpl in *.
  - eauto.
  - apply Forall_cons in Hlines as [Hline Hlines].
    destruct (well_shaped_lookup m i Hm ltac:(lia)) as (row & Hrow & Hlen).
    rewrite (overlay_line_whole _ _ _ _ Hrow) by lia. simpl.
    apply IH; [|lia|assumption].
    apply well_shaped_insert; [assumption|]. now rewrite length_paint.
Qed.

Lemma overlay_raise (lines : list (list (option Z))) :
  forall (m : matrix) (i : nat),
    well_shaped m -> (i + length lines <= 6)%nat ->
    Forall (fun line => length line = 22%nat \/ overlong line) lines ->
    Exists overlong lines ->
    overlay m i lines = Raise IndexError.
Proof.
  induction lines as [|line lines IH]; intros m i Hm Hi Hlines Hex; simpl in *.
  - now apply Exists_nil in Hex.
  - apply Forall_cons in Hlines as [Hline Hlines].
    destruct (well_shaped_lookup m i Hm ltac:(lia)) as (row & Hrow & Hlen).
    destruct Hline as [Hfit|(codes & -> & Hover)].
    + rewrite (overlay_line_whole _ _ _ _ Hrow) by lia. simpl.
      apply IH; [|lia|assumption|].
      * apply well_shaped_insert; [assumption|]. now rewrite length_paint.
      * apply Exists_cons in Hex as [(codes & -> & Hover)|Hex]; [|assumption].
        rewrite length_fmap in Hfit. lia.
    + now rewrite (overlay_line_raise codes m i 0 row Hrow) by lia.
Qed.


(** ** The composer as a whole *)

Lemma well_shaped_fill (f : Z -> Z -> Z) :
  well_shaped ((fun row => (fun col => f row col) <$> Py.range 22) <$> Py.range 6).
Proof.
  unfold well_shaped, Py.range. split.
  - now rewrite length_fmap, length_seqZ.
  - apply Forall_fmap, Forall_forall. intros row _. unfold compose.
    now rewrite length_fmap, length_seqZ.
Qed.

(** The background is always built: the float computation of the gradient
    never leaves the finite range. *)
Lemma background_matrix_ok (color : option string) (gradient : option (string * string)) :
  exists bg, background_matrix color gradient = Ok bg /\ well_shaped bg.
Proof.
  destruct gradient as [[start_color end_color]|]; simpl.
  - rewrite create_gradient_background_ramp. eexists. split; [reflexivity|].
    apply well_shaped_fill.
  - eexists. split; [reflexivity|].
    apply (well_shaped_fill (fun _ _ => default_fill_code color)).
Qed.

Lemma center_vertically_length (justify : justification) (lines : list (list (option Z))) :
  (length lines <= 6)%nat -> (length (center_vertically justify lines) <= 6)%nat.
Proof.
  intros Hlen. destruct justify; simpl; try assumption.
  unfold Py.llen, Py.repeat. rewrite !length_app, !length_replicate.
  assert (0 <= (6 - Z.of_nat (length lines)) `div` 2 <= 6 - Z.of_nat (length lines)).
  { split; [apply Z.div_pos; lia|]. apply Z.div_le_upper_bound; lia. }
  lia.
Qed.

Lemma center_vertically_Forall (P : list (option Z) -> Prop) (justify : justification)
    (lines : list (list (option Z))) :
  P (replicate 22 None) -> Forall P lines -> Forall P (center_vertically justify lines).
Proof.
  intros Hnone Hlines. destruct justify; simpl; try assumption.
  unfold Py.repeat. rewrite !Forall_app. repeat split; try assumption;
    apply Forall_replicate; exact Hnone.
Qed.

Lemma center_vertically_Exists (P : list (option Z) -> Prop) (justify : justification)
    (lines : list (list (option Z))) :
  Exists P lines -> Exists P (center_vertically justify lines).
Proof.
  intros Hex. destruct justify; simpl; try assumption.
  rewrite !Exists_app. auto.
Qed.

Section Composer.

Variable CHARACTER_CODES : gmap string Z.

Lemma justified_lines_length (message : string) (justify : justification) :
  (length (justified_lines CHARACTER_CODES message justify) <= 6)%nat.
Proof.
  unfold justified_lines. apply center_vertically_length.
  rewrite length_fmap, length_take. lia.
Qed.

Lemma justified_lines_fit (message : string) (justify : justification) :
  fits message = true ->
  Forall (fun line => length line = 22%nat) (justified_lines CHARACTER_CODES message justify).
Proof.
  unfold fits, justified_lines. intros Hfit.
  apply center_vertically_Forall; [reflexivity|].
  induction (take 6 (wrap message)) as [|line lines IH]; simpl in *; [constructor|].
  apply andb_prop in Hfit as [Hline Hlines]. constructor; [|auto].
  apply justify_line_fit. lia.
Qed.

Lemma justified_lines_over (message : string) (justify : justification) :
  fits message = false ->
  Forall (fun line => length line = 22%nat \/ overlong line)
    (justified_lines CHARACTER_CODES message justify)
  /\ Exists overlong (justified_lines CHARACTER_CODES message justify).
Proof.
  unfold fits, justified_lines. intros Hfit. split.
  - apply center_vertically_Forall; [now left|]. clear Hfit.
    apply Forall_fmap, Forall_forall. intros line _. simpl.
    destruct (decide (Py.len line <= 22)) as [Hle|Hgt].
    + left. now apply justify_line_fit.
    + right. exists (convert_text_to_codes CHARACTER_CODES line). split.
      * apply justify_line_over. lia.
      * pose proof (llen_codes CHARACTER_CODES line). unfold Py.llen in *. lia.
  - apply center_vertically_Exists.
    induction (take 6 (wrap message)) as [|line lines IH]; simpl in *; [discriminate|].
    apply andb_false_iff in Hfit as [Hline|Hlines].
    + apply Exists_cons_hd. exists (convert_text_to_codes CHARACTER_CODES line). split.
      * apply justify_line_over. lia.
      * pose proof (llen_codes CHARACTER_CODES line). unfold Py.llen in *. lia.
    + apply Exists_cons_tl. auto.
Qed.

(** When every retained line fits the board the composer returns a matrix of
    6 rows of 22 cells. *)
Lemma create_message_matrix_returns (message : string) (color : option string)
    (justify : justification) (gradient : option (string * string)) :
  fits message = true ->
  exists m, create_message_matrix CHARACTER_CODES message color justify gradient = Ok m
            /\ well_shaped m.
Proof.
  intros Hfit. unfold create_message_matrix.
  destruct (background_matrix_ok color gradient) as (bg & -> & Hbg). simpl.
  apply overlay_ok; [assumption| |now apply justified_lines_fit].
  pose proof (justified_lines_length message justify). lia.
Qed.

(** When a retained line is wider than the board the store of its 23rd code
    is out of range. *)
Lemma create_message_matrix_raises (message : string) (color : option string)
    (justify : justification) (gradient : option (string * string)) :
  fits message = false ->
  create_message_matrix CHARACTER_CODES message color justify gradient = Raise IndexError.
Proof.
  intros Hfit. unfold create_message_matrix.
  destruct (background_matrix_ok color gradient) as (bg & -> & Hbg). simpl.
  destruct (justified_lines_over message justify Hfit) as [Hall Hex].
  apply overlay_raise; try assumption.
  pose proof (justified_lines_length message justify). lia.
Qed.

End Composer.

(** ** The cells of the result *)

Lemma chars_app (a b : string) : chars (a +:+ b) = chars a ++ chars b.
Proof.
  unfold chars. induction a as [|c a IH]; [reflexivity|].
  rewrite str_app_cons. simpl. now rewrite IH.
Qed.

Lemma length_chars (s : string) : length (chars s) = String.length s.
Proof. pose proof (len_chars s) as H. unfold Py.len in H. lia. Qed.

Lemma paint_lookup_code (row : list Z) (line : list (option Z)) (j : nat) (code : Z) :
  (j < length row)%nat -> line !! j = Some (Some code) -> paint row line !! j = Some code.
Proof.
  revert line j. induction row as [|b row IH]; intros [|c line] [|j] Hj Hc;
    simpl in *; try lia; try discriminate.
  - now inversion Hc.
  - apply IH; [lia|assumption].
Qed.

Lemma paint_lookup_transparent (row : list Z) (line : list (option Z)) (j : nat) :
  line !! j = Some None -> paint row line !! j = row !! j.
Proof.
  revert line j. induction row as [|b row IH]; intros [|c line] [|j] Hc;
    simpl in *; try discriminate; try reflexivity.
  - now inversion Hc.
  - now apply IH.
Qed.

Lemma paint_transparent (row : list Z) (n : nat) : paint row (replicate n None) = row.
Proof.
  revert n. induction row as [|b row IH]; intros [|n]; simpl; try reflexivity.
  now rewrite IH.
Qed.

(** Row [k] of the result is row [k] of the background seen through line
    [k - i], when there is such a line. *)
Lemma overlay_lookup (lines : list (list (option Z))) :
  forall (m m' : matrix) (i k : nat),
    well_shaped m -> (i + length lines <= 6)%nat ->
    Forall (fun line => length line = 22%nat) lines ->
    overlay m i lines = Ok m' ->
    m' !! k = (fun row =>
                 match (if decide (i <= k)%nat then lines !! (k - i)%nat else None) with
                 | Some line => paint row line
                 | None => row
                 end) <$> m !! k.
Proof.
  induction lines as [|line lines IH]; intros m m' i k Hm Hi Hlines Hov; simpl in *.
  - inversion Hov; subst. destruct (m' !! k); simpl; [|reflexivity].
    now destruct (decide (i <= k)%nat).
  - apply Forall_cons in Hlines as [Hline Hlines].
    destruct (well_shaped_lookup m i Hm ltac:(lia)) as (row & Hrow & Hlen).
    rewrite (overlay_line_whole _ _ _ _ Hrow) in Hov by lia. simpl in Hov.
    assert (Hm1 : well_shaped (<[i := paint row line]> m)).
    { apply well_shaped_insert; [assumption|]. now rewrite length_paint. }
    rewrite (IH _ _ (S i) k Hm1 ltac:(lia) Hlines Hov).
    destruct (decide (k = i)) as [->|Hne].
    + rewrite list_lookup_insert_eq by (eapply lookup_lt_Some, Hrow).
      rewrite Hrow, decide_False, decide_True by lia. simpl.
      now rewrite Nat.sub_diag.
    + rewrite list_lookup_insert_ne by congruence.
      destruct (m !! k) as [rowk|]; simpl; [|reflexivity]. f_equal.
      destruct (decide (S i <= k)%nat) as [Hle|Hgt].
      * rewrite decide_True by lia.
        now replace (k - i)%nat with (S (k - S i)) by lia.
      * now rewrite decide_False by lia.
Qed.

(** ** Words wider than the board *)

Lemma wrap_step_keeps (st : list string * string) (word line : string) :
  line ∈ st.1 -> line ∈ (wrap_step st word).1.
Proof.
  destruct st as [lines current_line]. simpl. intros Hin.
  case_decide; simpl; [assumption|]. apply elem_of_app. now left.
Qed.

Lemma wrap_fold_keeps (ws : list string) (st : list string * string) (line : string) :
  line ∈ st.1 -> line ∈ (foldl wrap_step st ws).1.
Proof.
  revert st. induction ws as [|w ws IH]; intros st Hin; simpl; [assumption|].
  apply IH. now apply wrap_step_keeps.
Qed.

(** Once the running line is wider than the board it is closed as it is:
    by the next word, or at the end of the message. *)
Lemma wrap_fold_closes (ws : list string) (lines : list string) (current_line : string) :
  22 < Py.len current_line ->
  let st := foldl wrap_step (lines, current_line) ws in
  current_line ∈ (if Py.truthy st.2 then st.1 ++ [st.2] else st.1).
Proof.
  intros Hlong. destruct ws as [|w ws]; simpl.
  - rewrite (proj2 (truthy_len current_line)) by lia.
    apply elem_of_app. right. apply list_elem_of_here.
  - pose proof (len_nonneg w).
    rewrite decide_False by (destruct (Py.truthy current_line); lia).
    assert (current_line ∈ (foldl wrap_step (lines ++ [current_line], w) ws).1) as Hin.
    { apply wrap_fold_keeps. simpl. apply elem_of_app. right. apply list_elem_of_here. }
    destruct (Py.truthy _); [|assumption].
    apply elem_of_app. now left.
Qed.

Lemma wrap_words_long_word (ws1 ws2 : list string) (w : string) :
  22 < Py.len w -> w ∈ wrap_words (ws1 ++ w :: ws2).
Proof.
  intros Hlong. unfold wrap_words. rewrite foldl_app. simpl.
  destruct (foldl wrap_step ([], "") ws1) as [lines current_line]. simpl.
  pose proof (len_nonneg current_line).
  rewrite decide_False by (destruct (Py.truthy current_line); lia).
  pose proof (wrap_fold_closes ws2 (lines ++ [current_line]) w Hlong) as Hin.
  simpl in Hin. now destruct (foldl wrap_step (lines ++ [current_line], w) ws2).
Qed.

(** A retained line wider than the board means the message does not fit. *)
Lemma long_line_not_fits (message line : string) (i : nat) :
  (i < 6)%nat -> wrap message !! i = Some line -> 22 < Py.len line -> fits message = false.
Proof.
  intros Hi Hline Hlong. unfold fits.
  assert (Hin : In line (take 6 (wrap message))).
  { apply list_elem_of_In, list_elem_of_lookup. exists i. now rewrite lookup_take_lt. }
  destruct (forallb _ _) eqn:E; [|reflexivity].
  rewrite forallb_forall in E. specialize (E line Hin). lia.
Qed.

Lemma words_fit (message : string) :
  Forall (fun w => Py.len w <= 22) (Py.split message) -> fits message = true.
Proof.
  intros Hws. unfold fits, wrap. apply forallb_forall. intros line Hin.
  apply list_elem_of_In, elem_of_take in Hin as (i & Hline & _).
  pose proof (wrap_words_fit _ Hws) as Hall. rewrite Forall_forall in Hall.
  apply Z.leb_le, Hall. eapply list_elem_of_lookup_2, Hline.
Qed.

Lemma ramp_matrix_cell_inv (a b : Z) (row col : nat) (v : Z) :
  cell (ramp_matrix a b) row col = Some v ->
  (row < 6)%nat /\ (col < 22)%nat /\ v = ramp a b (Z.of_nat row) (Z.of_nat col).
Proof.
  intros Hcell.
  assert (Hrow : (row < 6)%nat).
  { destruct (decide (row < 6)%nat) as [|Hge]; [assumption|]. exfalso.
    unfold cell, ramp_matrix, Py.range in Hcell.
    rewrite list_lookup_fmap, lookup_seqZ_ge in Hcell by lia. discriminate. }
  assert (Hcol : (col < 22)%nat).
  { destruct (decide (col < 22)%nat) as [|Hge]; [assumption|]. exfalso.
    unfold cell, ramp_matrix, Py.range in Hcell.
    rewrite list_lookup_fmap, lookup_seqZ_lt in Hcell by lia.
    cbn [fmap option_fmap option_map mbind option_bind] in Hcell.
    rewrite list_lookup_fmap, lookup_seqZ_ge in Hcell by lia. discriminate. }
  rewrite ramp_matrix_cell in Hcell by assumption. inversion Hcell. auto.
Qed.

(** ** One line of two words *)

Lemma split_two_words (a b : string) :
  is_word a = true -> is_word b = true -> Py.split (a +:+ " " +:+ b) = [a; b].
Proof.
  intros Ha Hb. change (a +:+ " " +:+ b) with (a +:+ String " " b).
  rewrite split_space_app by reflexivity. now rewrite (split_word a), (split_word b).
Qed.

Lemma is_word_truthy (w : string) : is_word w = true -> Py.truthy w = true.
Proof. unfold is_word. intros H. now apply andb_prop in H as [Ht _]. Qed.

Lemma wrap_two_words (a b : string) :
  is_word a = true -> is_word b = true -> Py.len a + 1 + Py.len b <= 22 ->
  wrap (a +:+ " " +:+ b) = [a +:+ " " +:+ b].
Proof.
  intros Ha Hb Hlen. unfold wrap. rewrite split_two_words by assumption.
  rewrite wrap_words_one_line; [reflexivity|discriminate| |].
  - repeat constructor; now apply is_word_truthy.
  - change (join [a; b]) with (a +:+ " " +:+ b). rewrite !len_app.
    change (Py.len " ") with 1. lia.
Qed.

Lemma char_code_space (CHARACTER_CODES : gmap string Z) : char_code CHARACTER_CODES " " = 0.
Proof. reflexivity. Qed.

(** Left-justified, a line keeps its codes in place: the cell of column [j]
    of the line is the code of its character [j]. *)
Lemma justify_left_lookup (CHARACTER_CODES : gmap string Z) (line : string) (j : nat) (c : ascii) :
  chars line !! j = Some c ->
  justify_line CHARACTER_CODES JLeft line !! j = Some (Some (char_code CHARACTER_CODES c)).
Proof.
  intros Hc. unfold justify_line, convert_text_to_codes. fold (chars line).
  rewrite lookup_app_l.
  - now rewrite !list_lookup_fmap, Hc.
  - rewrite !length_fmap. eapply lookup_lt_Some, Hc.
Qed.

(** The space between two words of one left-justified line is stored as
    the code 0, over any background. *)
Lemma space_cell_zero (CHARACTER_CODES : gmap string Z) (a b : string)
    (color : option string) (gradient : option (string * string)) :
  is_word a = true -> is_word b = true -> Py.len a + 1 + Py.len b <= 22 ->
  exists m,
    create_message_matrix CHARACTER_CODES (a +:+ " " +:+ b) color JLeft gradient = Ok m
    /\ cell m 0 (String.length a) = Some 0.
Proof.
  intros Ha Hb Hlen.
  assert (Hline : Py.len (a +:+ " " +:+ b) <= 22).
  { rewrite !len_app. change (Py.len " ") with 1. lia. }
  set (line := justify_line CHARACTER_CODES JLeft (a +:+ " " +:+ b)).
  assert (Hlines : justified_lines CHARACTER_CODES (a +:+ " " +:+ b) JLeft = [line]).
  { unfold justified_lines. now rewrite wrap_two_words by assumption. }
  assert (Hfit : length line = 22%nat) by now apply justify_line_fit.
  unfold create_message_matrix. rewrite Hlines.
  destruct (background_matrix_ok color gradient) as (bg & -> & Hbg).
  destruct (well_shaped_lookup bg 0 Hbg ltac:(lia)) as (row & Hrow & Hrowlen).
  cbn [bind overlay]. rewrite (overlay_line_whole _ _ _ _ Hrow) by lia. cbn [bind].
  eexists. split; [reflexivity|].
  unfold cell. rewrite list_lookup_insert_eq by (eapply lookup_lt_Some, Hrow).
  cbn [mbind option_bind].
  pose proof (len_nonneg b). unfold Py.len in Hlen.
  apply paint_lookup_code; [lia|].
  rewrite <- (char_code_space CHARACTER_CODES). apply justify_left_lookup.
  rewrite chars_app, lookup_app_r by (rewrite length_chars; lia).
  now rewrite length_chars, Nat.sub_diag.
Qed.

(** * The claims *)

(** C5. For a gradient between two colours of the table the matrix is
    returned, its cell (0,0) is the start code, its cell (5,21) is the end
    code, and its cell at row [r] and column [c] is the floor of
    [start + ((r*22 + c)/131) * (end - start)], which is
    [start + ((r*22 + c) * (end - start)) div 131] in integers: the float
    result is cut towards the lower integer, never rounded to the nearest. *)
Theorem gradient_cells (start_color end_color : string) (start_code end_code : Z) :
  COLOR_CODES !! Py.lower start_color = Some start_code ->
  COLOR_CODES !! Py.lower end_color = Some end_code ->
  exists m,
    create_gradient_background start_color end_color = Ok m
    /\ cell m 0 0 = Some start_code
    /\ cell m 5 21 = Some end_code
    /\ forall r c : nat, (r < 6)%nat -> (c < 22)%nat ->
         cell m r c
         = Some (start_code
                 + ((Z.of_nat r * 22 + Z.of_nat c) * (end_code - start_code)) `div` 131).
Proof.
  intros Hs He. rewrite create_gradient_background_ramp.
  unfold Py.get. rewrite Hs, He. simpl.
  eexists. split; [reflexivity|]. repeat split.
  - rewrite ramp_matrix_cell by lia. unfold ramp. f_equal.
    replace ((Z.of_nat 0 * 22 + Z.of_nat 0) * (end_code - start_code)) with 0 by lia.
    rewrite Z.div_0_l by lia. lia.
  - rewrite ramp_matrix_cell by lia. unfold ramp. f_equal.
    replace ((Z.of_nat 5 * 22 + Z.of_nat 21) * (end_code - start_code))
      with ((end_code - start_code) * 131) by lia.
    rewrite Z.div_mul by lia. lia.
  - intros r c Hr Hc. now rewrite ramp_matrix_cell.
Qed.

Lemma gradient_cells_witness :
  exists m,
    create_gradient_background "red" "black" = Ok m
    /\ cell m 0 0 = Some 63
    /\ cell m 5 21 = Some 70
    /\ forall r c : nat, (r < 6)%nat -> (c < 22)%nat ->
         cell m r c = Some (63 + ((Z.of_nat r * 22 + Z.of_nat c) * (70 - 63)) `div` 131).
Proof. apply (gradient_cells "red" "black" 63 70); reflexivity. Defined.

(** C9. When the end code is above the start code the gradient is returned
    and its cells never decrease along the reading order [r*22 + c]. *)
Theorem gradient_monotone (start_color end_color : string) :
  Py.get COLOR_CODES (Py.lower start_color) 70 < Py.get COLOR_CODES (Py.lower end_color) 70 ->
  exists m,
    create_gradient_background start_color end_color = Ok m
    /\ forall (r1 c1 r2 c2 : nat) (v1 v2 : Z),
         cell m r1 c1 = Some v1 -> cell m r2 c2 = Some v2 ->
         (r1 * 22 + c1 <= r2 * 22 + c2)%nat -> v1 <= v2.
Proof.
  intros Hlt. rewrite create_gradient_background_ramp.
  eexists. split; [reflexivity|].
  intros r1 c1 r2 c2 v1 v2 H1 H2 Hpos.
  apply ramp_matrix_cell_inv in H1 as (_ & _ & ->).
  apply ramp_matrix_cell_inv in H2 as (_ & _ & ->).
  unfold ramp. apply Z.add_le_mono_l, Z.div_le_mono; [lia|].
  apply Z.mul_le_mono_nonneg_r; lia.
Qed.

Lemma gradient_monotone_witness :
  exists m,
    create_gradient_background "red" "black" = Ok m
    /\ forall (r1 c1 r2 c2 : nat) (v1 v2 : Z),
         cell m r1 c1 = Some v1 -> cell m r2 c2 = Some v2 ->
         (r1 * 22 + c1 <= r2 * 22 + c2)%nat -> v1 <= v2.
Proof. apply (gradient_monotone "red" "black"). reflexivity. Defined.

(** C4, as the code has it. A colour name that the table does not hold
    counts as black, code 70, in the gradient, at the start and at the end;
    in the solid fill such a name, like no name at all, gives the code 0. *)
Theorem unknown_color_codes (name : string) :
  COLOR_CODES !! Py.lower name = None ->
  COLOR_CODES !! Py.lower "black" = Some 70
  /\ (forall other : string,
        create_gradient_background name other = create_gradient_background "black" other
        /\ create_gradient_background other name = create_gradient_background other "black")
  /\ default_fill_code (Some name) = 0
  /\ default_fill_code None = 0.
Proof.
  intros Hname.
  assert (Hblack : Py.get COLOR_CODES (Py.lower name) 70
                   = Py.get COLOR_CODES (Py.lower "black") 70).
  { unfold Py.get. rewrite Hname. reflexivity. }
  split; [reflexivity|]. split; [|split].
  - intros other. unfold create_gradient_background. rewrite Hblack. auto.
  - unfold default_fill_code, Py.get. rewrite Hname. now destruct (Py.truthy name).
  - reflexivity.
Qed.

Lemma unknown_color_codes_witness :
  COLOR_CODES !! Py.lower "black" = Some 70
  /\ (forall other : string,
        create_gradient_background "chartreuse" other = create_gradient_background "black" other
        /\ create_gradient_background other "chartreuse"
           = create_gradient_background other "black")
  /\ default_fill_code (Some "chartreuse") = 0
  /\ default_fill_code None = 0.
Proof. apply (unknown_color_codes "chartreuse"). reflexivity. Defined.

(** C4 as stated fails in the solid fill: "chartreuse" is not in the table
    and fills the board with 0, not with the black code 70, and so does no
    colour at all. *)
Lemma unknown_color_solid_fill :
  COLOR_CODES !! Py.lower "chartreuse" = None
  /\ default_fill_code (Some "chartreuse") <> 70
  /\ default_fill_code None <> 70
  /\ exists m, background_matrix (Some "chartreuse") None = Ok m /\ cell m 0 0 = Some 0.
Proof.
  split; [reflexivity|]. split; [discriminate|]. split; [discriminate|].
  eexists. split; reflexivity.
Qed.

(** C7. A message whose words, joined by single spaces, take exactly 22
    characters is wrapped onto one line, that very line; with one more word
    of one character after it, the line stays as it is and the new word makes
    the second line, alone. *)
Theorem wrap_boundary (message : string) :
  Py.len (join (Py.split message)) = 22 ->
  wrap message = [join (Py.split message)]
  /\ forall c : ascii,
       Py.isspace c = false ->
       wrap (message +:+ " " +:+ String c "") = [join (Py.split message); String c ""].
Proof.
  intros Hlen. pose proof (split_truthy message) as Hws.
  assert (Hne : Py.split message <> []).
  { intros E. rewrite E in Hlen. discriminate. }
  split.
  - unfold wrap. apply wrap_words_one_line; auto. lia.
  - intros c Hc. unfold wrap.
    change (message +:+ " " +:+ String c "") with (message +:+ String " " (String c "")).
    rewrite split_space_app by reflexivity.
    rewrite (split_word (String c "")) by (unfold is_word; simpl; now rewrite Hc).
    unfold wrap_words. rewrite foldl_snoc, wrap_one_line by (auto; lia).
    simpl. rewrite join_truthy by assumption.
    rewrite decide_False; [reflexivity|].
    rewrite Hlen. change (Py.len (String c "")) with 1. lia.
Qed.

Lemma wrap_boundary_witness :
  wrap "the quick brown fox ok" = [join (Py.split "the quick brown fox ok")]
  /\ forall c : ascii,
       Py.isspace c = false ->
       wrap ("the quick brown fox ok" +:+ " " +:+ String c "")
       = [join (Py.split "the quick brown fox ok"); String c ""].
Proof. apply (wrap_boundary "the quick brown fox ok"). reflexivity. Defined.

(** C8. A line of at most 22 characters, centred, is its codes between
    [left = (22 - len) div 2] transparent cells and [22 - len - left]
    transparent cells, 22 cells in all, and the right side is the left side
    or one more; a line of one character has 10 transparent cells on its
    left and 11 on its right. *)
Theorem center_padding (CHARACTER_CODES : gmap string Z) (line : string) :
  Py.len line <= 22 ->
  let len := String.length line in
  let left := ((22 - len) / 2)%nat in
  let right := (22 - len - left)%nat in
  justify_line CHARACTER_CODES JCenter line
  = replicate left None ++ (Some <$> convert_text_to_codes CHARACTER_CODES line)
      ++ replicate right None
  /\ (left + len + right = 22)%nat
  /\ (left <= right <= left + 1)%nat
  /\ (len = 1%nat -> left = 10%nat /\ right = 11%nat).
Proof.
  intros Hlen len left right. unfold Py.len in Hlen. fold len in Hlen.
  assert (Hdiv : (2 * left <= 22 - len < 2 * left + 2)%nat).
  { unfold left. pose proof (Nat.div_mod_eq (22 - len) 2).
    pose proof (Nat.mod_upper_bound (22 - len) 2). lia. }
  repeat split; try lia.
  unfold justify_line, Py.repeat. rewrite llen_codes. unfold Py.len. fold len.
  assert (Z.to_nat ((22 - Z.of_nat len) `div` 2) = left) as ->.
  { unfold left. replace (22 - Z.of_nat len) with (Z.of_nat (22 - len)) by lia.
    change 2 with (Z.of_nat 2). rewrite <- Nat2Z.inj_div. apply Nat2Z.id. }
  assert ((22 - Z.of_nat len) `div` 2 = Z.of_nat left) as ->.
  { unfold left. replace (22 - Z.of_nat len) with (Z.of_nat (22 - len)) by lia.
    change 2 with (Z.of_nat 2). now rewrite <- Nat2Z.inj_div. }
  now replace (Z.to_nat (22 - Z.of_nat len - Z.of_nat left)) with right by lia.
Qed.

Lemma center_padding_witness :
  justify_line ∅ JCenter "A" = replicate 10 None ++ (Some <$> convert_text_to_codes ∅ "A")
                                 ++ replicate 11 None
  /\ (10 + 1 + 11 = 22)%nat
  /\ (10 <= 11 <= 10 + 1)%nat
  /\ (1%nat = 1%nat -> 10%nat = 10%nat /\ 11%nat = 11%nat).
Proof. apply (center_padding ∅ "A"). vm_compute. discriminate. Defined.

(** C10. For a message that is empty or all white space the composer
    returns the background it built, cell for cell, whatever the
    justification, the colour and the gradient. *)
Theorem blank_message_is_background (CHARACTER_CODES : gmap string Z) (message : string)
    (color : option string) (justify : justification) (gradient : option (string * string)) :
  blank message = true ->
  exists background,
    background_matrix color gradient = Ok background
    /\ create_message_matrix CHARACTER_CODES message color justify gradient = Ok background.
Proof.
  intros Hblank. destruct (background_matrix_ok color gradient) as (bg & Hbg & _).
  exists bg. split; [assumption|].
  unfold create_message_matrix, justified_lines, wrap. rewrite Hbg. simpl.
  rewrite (split_blank _ Hblank).
  destruct justify; [reflexivity|reflexivity|exact (overlay_transparent 6 22 bg 0)].
Qed.

Lemma blank_message_is_background_witness :
  exists background,
    background_matrix (Some "red") None = Ok background
    /\ create_message_matrix ∅ "   " (Some "red") JCenter None = Ok background.
Proof. apply (blank_message_is_background ∅ "   "). reflexivity. Defined.

(** C6, on the code. For the message of one word of 34 letters the composer
    returns no matrix, of 6 rows of 22 cells or of any other shape: it
    raises [IndexError], for every table, colour, justification and
    gradient. *)
Theorem no_matrix_for_long_word (CHARACTER_CODES : gmap string Z) (color : option string)
    (justify : justification) (gradient : option (string * string)) :
  create_message_matrix CHARACTER_CODES "SUPERCALIFRAGILISTICEXPIALIDOCIOUS" color justify
    gradient = Raise IndexError
  /\ ~ exists m,
        create_message_matrix CHARACTER_CODES "SUPERCALIFRAGILISTICEXPIALIDOCIOUS" color
          justify gradient = Ok m
        /\ length m = 6%nat
        /\ Forall (fun row : list Z => length row = 22%nat) m.
Proof.
  assert (Hraise : create_message_matrix CHARACTER_CODES "SUPERCALIFRAGILISTICEXPIALIDOCIOUS"
                     color justify gradient = Raise IndexError).
  { apply create_message_matrix_raises. reflexivity. }
  split; [exact Hraise|]. intros (m & Hm & _). rewrite Hraise in Hm. discriminate.
Qed.

(** C1, on the code. In the message "A B" on a red background the cell of
    the space holds 0 in the result, where the background holds the red
    code 63: the encoding gives a space the code 0, which is a code like any
    other for the overlay, and only the padding is transparent. *)
Theorem space_overwrites_background (CHARACTER_CODES : gmap string Z) :
  exists background m,
    background_matrix (Some "red") None = Ok background
    /\ create_message_matrix CHARACTER_CODES "A B" (Some "red") JLeft None = Ok m
    /\ cell background 0 1 = Some 63
    /\ cell m 0 1 = Some 0.
Proof.
  destruct (space_cell_zero CHARACTER_CODES "A" "B" (Some "red") None)
    as (m & Hm & Hcell); try reflexivity.
  { vm_compute. discriminate. }
  eexists. exists m. split; [reflexivity|]. split; [exact Hm|]. split; [reflexivity|exact Hcell].
Qed.

(** C2, on the code. A message of one word of 23 letters makes the composer
    raise [IndexError], for every table, colour, justification and
    gradient. *)
Theorem long_word_raises (CHARACTER_CODES : gmap string Z) (color : option string)
    (justify : justification) (gradient : option (string * string)) :
  create_message_matrix CHARACTER_CODES "AAAAAAAAAAAAAAAAAAAAAAA" color justify gradient
  = Raise IndexError.
Proof. apply create_message_matrix_raises. reflexivity. Qed.

(** C3, on the code. A word of more than 22 characters is a wrapped line of
    its own, wherever it stands in the message; the encoding keeps all its
    characters; and when that line is one of the first six the composer
    raises [IndexError] instead of returning a row of its first 22 codes. *)
Theorem long_word_not_truncated (CHARACTER_CODES : gmap string Z) (message word : string)
    (color : option string) (justify : justification) (gradient : option (string * string)) :
  word ∈ Py.split message -> 22 < Py.len word ->
  word ∈ wrap message
  /\ length (convert_text_to_codes CHARACTER_CODES word) = String.length word
  /\ forall i : nat, (i < 6)%nat -> wrap message !! i = Some word ->
       create_message_matrix CHARACTER_CODES message color justify gradient = Raise IndexError.
Proof.
  intros Hin Hlong. split; [|split].
  - apply list_elem_of_split in Hin as (ws1 & ws2 & Hsplit).
    unfold wrap. rewrite Hsplit. now apply wrap_words_long_word.
  - apply length_codes.
  - intros i Hi Hline. apply create_message_matrix_raises.
    now apply (long_line_not_fits message word i).
Qed.

Lemma long_word_not_truncated_witness :
  "BBBBBBBBBBBBBBBBBBBBBBBBB" ∈ wrap "HI BBBBBBBBBBBBBBBBBBBBBBBBB"
  /\ length (convert_text_to_codes ∅ "BBBBBBBBBBBBBBBBBBBBBBBBB")
     = String.length "BBBBBBBBBBBBBBBBBBBBBBBBB"
  /\ forall i : nat, (i < 6)%nat ->
       wrap "HI BBBBBBBBBBBBBBBBBBBBBBBBB" !! i = Some "BBBBBBBBBBBBBBBBBBBBBBBBB" ->
       create_message_matrix ∅ "HI BBBBBBBBBBBBBBBBBBBBBBBBB" None JLeft None
       = Raise IndexError.
Proof.
  apply (long_word_not_truncated ∅ "HI BBBBBBBBBBBBBBBBBBBBBBBBB" "BBBBBBBBBBBBBBBBBBBBBBBBB").
  - vm_compute. apply list_elem_of_further, list_elem_of_here.
  - reflexivity.
Defined.

(** * Further properties of the composer *)

(** ** The words of a message *)

Lemma scan_words (s : string) :
  forallb (fun c => negb (Py.isspace c)) (chars (Py.scan s).1) = true
  /\ Forall (fun w => is_word w = true) (Py.scan s).2.
Proof.
  induction s as [|c s [IHw IHws]]; simpl; [split; [reflexivity|constructor]|].
  destruct (Py.scan s) as [w ws]. simpl in *.
  destruct (Py.isspace c) eqn:Hc; simpl.
  - split; [reflexivity|]. unfold Py.cons_word.
    destruct (Py.truthy w) eqn:Hw; [|assumption].
    constructor; [|assumption]. unfold is_word. now rewrite Hw, IHw.
  - split; [|assumption]. change (chars (String c w)) with (c :: chars w). simpl.
    now rewrite Hc, IHw.
Qed.

Lemma split_words (s : string) : Forall (fun w => is_word w = true) (Py.split s).
Proof.
  unfold Py.split. destruct (scan_words s) as [Hw Hws].
  destruct (Py.scan s) as [w ws]. simpl in *. unfold Py.cons_word.
  destruct (Py.truthy w) eqn:Ht; [|assumption].
  constructor; [|assumption]. unfold is_word. now rewrite Ht, Hw.
Qed.

(** ** The word wrap keeps the words *)

Lemma words_of_snoc (lines : list string) (line : string) :
  words_of (lines ++ [line]) = words_of lines ++ Py.split line.
Proof.
  unfold words_of. rewrite fmap_app, concat_app. simpl. now rewrite app_nil_r.
Qed.

Lemma split_extend (current_line word : string) :
  is_word word = true ->
  Py.split (current_line +:+ (if Py.truthy current_line then " " else "") +:+ word)
  = Py.split current_line ++ [word].
Proof.
  intros Hw. destruct current_line as [|c s].
  - simpl. rewrite !str_app_empty_l. now rewrite split_word.
  - cbn [Py.truthy]. change (" " +:+ word) with (String " " word).
    rewrite split_space_app by reflexivity. now rewrite (split_word word).
Qed.

Lemma wrap_step_words (st : list string * string) (word : string) :
  is_word word = true ->
  words_of (wrap_step st word).1 ++ Py.split (wrap_step st word).2
  = (words_of st.1 ++ Py.split st.2) ++ [word].
Proof.
  intros Hw. destruct st as [lines current_line]. simpl.
  case_decide; simpl.
  - rewrite split_extend by assumption. now rewrite app_assoc.
  - now rewrite words_of_snoc, (split_word word).
Qed.

Lemma wrap_fold_words (ws : list string) (st : list string * string) :
  Forall (fun w => is_word w = true) ws ->
  words_of (foldl wrap_step st ws).1 ++ Py.split (foldl wrap_step st ws).2
  = (words_of st.1 ++ Py.split st.2) ++ ws.
Proof.
  revert st. induction ws as [|w ws IH]; intros st Hws; simpl.
  - now rewrite app_nil_r.
  - apply Forall_cons in Hws as [Hw Hws]. rewrite IH by assumption.
    rewrite wrap_step_words by assumption. now rewrite <- app_assoc.
Qed.

Lemma wrap_words_words (ws : list string) :
  Forall (fun w => is_word w = true) ws -> words_of (wrap_words ws) = ws.
Proof.
  intros Hws. pose proof (wrap_fold_words ws ([], "") Hws) as H.
  unfold wrap_words. destruct (foldl wrap_step ([], "") ws) as [lines current_line].
  simpl in H. destruct (Py.truthy current_line) eqn:Ht.
  - now rewrite words_of_snoc.
  - apply not_truthy in Ht. rewrite Ht in H. simpl in H. now rewrite app_nil_r in H.
Qed.

(** ** The widths of the wrapped lines *)

Lemma wrap_fold_widths (all ws : list string) (st : list string * string) :
  (forall w, w ∈ ws -> w ∈ all) ->
  Forall (fun l => Py.len l <= 22 \/ l ∈ all) st.1 ->
  (Py.len st.2 <= 22 \/ st.2 ∈ all) ->
  Forall (fun l => Py.len l <= 22 \/ l ∈ all) (foldl wrap_step st ws).1
  /\ (Py.len (foldl wrap_step st ws).2 <= 22 \/ (foldl wrap_step st ws).2 ∈ all).
Proof.
  revert st. induction ws as [|w ws IH]; intros [lines current_line] Hall Hl Hc; simpl in *.
  - auto.
  - assert (Hw : w ∈ all) by (apply Hall, list_elem_of_here).
    assert (Hws : forall x, x ∈ ws -> x ∈ all) by (intros x Hx; now apply Hall, list_elem_of_further).
    case_decide as Hfit; apply IH; simpl; auto.
    + left. rewrite !len_app.
      destruct (Py.truthy current_line); [change (Py.len " ") with 1|change (Py.len "") with 0]; lia.
    + apply Forall_app. split; [assumption|]. constructor; [assumption|constructor].
Qed.

Lemma wrap_words_widths (ws : list string) (line : string) :
  line ∈ wrap_words ws -> Py.len line <= 22 \/ line ∈ ws.
Proof.
  intros Hin. unfold wrap_words in Hin.
  destruct (wrap_fold_widths ws ws ([], "") (fun _ H => H)) as [Hl Hc];
    [constructor|left; unfold Py.len; simpl; lia|].
  destruct (foldl wrap_step ([], "") ws) as [lines current_line]. simpl in *.
  rewrite Forall_forall in Hl.
  destruct (Py.truthy current_line); [|now apply Hl].
  apply elem_of_app in Hin as [Hin|Hin]; [now apply Hl|].
  apply list_elem_of_singleton in Hin. now subst.
Qed.

(** ** Empty lines *)

Lemma truthy_app_l (a b : string) : Py.truthy a = true -> Py.truthy (a +:+ b) = true.
Proof. now destruct a. Qed.

Lemma wrap_fold_nonempty (ws : list string) :
  forall (lines : list string) (current_line : string),
    Py.truthy current_line = true ->
    Forall (fun w => Py.truthy w = true) ws ->
    exists more,
      (foldl wrap_step (lines, current_line) ws).1 = lines ++ more
      /\ Forall (fun l => Py.truthy l = true) more
      /\ Py.truthy (foldl wrap_step (lines, current_line) ws).2 = true.
Proof.
  induction ws as [|w ws IH]; intros lines current_line Hc Hws; simpl.
  - exists []. rewrite app_nil_r. auto.
  - apply Forall_cons in Hws as [Hw Hws]. case_decide as Hfit.
    + apply IH; [|assumption]. now apply truthy_app_l.
    + destruct (IH (lines ++ [current_line]) w Hw Hws) as (more & Heq & Hmore & Hlast).
      exists (current_line :: more). rewrite Heq, <- app_assoc. auto.
Qed.

Lemma wrap_words_first (w : string) (ws : list string) :
  Forall (fun w => Py.truthy w = true) (w :: ws) ->
  exists rest,
    wrap_words (w :: ws) = (if decide (Py.len w <= 22) then rest else "" :: rest)
    /\ Forall (fun l => Py.truthy l = true) rest.
Proof.
  intros Hws. apply Forall_cons in Hws as [Hw Hws].
  unfold wrap_words. simpl. change (Py.len "") with 0.
  replace (0 + Py.len w + 0) with (Py.len w) by lia.
  destruct (decide (Py.len w <= 22)) as [Hfit|Hlong].
  - destruct (wrap_fold_nonempty ws [] ("" +:+ "" +:+ w)) as (more & Heq & Hmore & Hlast);
      [assumption..|].
    destruct (foldl wrap_step ([], "" +:+ "" +:+ w) ws) as [lines current_line].
    simpl in *. subst lines. rewrite Hlast. exists (more ++ [current_line]).
    split; [reflexivity|]. apply Forall_app. split; [assumption|]. now repeat constructor.
  - destruct (wrap_fold_nonempty ws [""] w) as (more & Heq & Hmore & Hlast); [assumption..|].
    destruct (foldl wrap_step ([""], w) ws) as [lines current_line].
    simpl in *. subst lines. rewrite Hlast. exists (more ++ [current_line]).
    split; [reflexivity|]. apply Forall_app. split; [assumption|]. now repeat constructor.
Qed.

(** ** The layout of the text *)

Lemma half_Z (n : nat) : (Z.of_nat n) `div` 2 = Z.of_nat (n / 2).
Proof. change 2 with (Z.of_nat 2). now rewrite <- Nat2Z.inj_div. Qed.

Lemma half_le (n : nat) : (n / 2 <= n)%nat.
Proof. apply Nat.Div0.div_le_upper_bound. lia. Qed.

Lemma justify_line_shape (CHARACTER_CODES : gmap string Z) (justify : justification)
    (line : string) :
  Py.len line <= 22 ->
  justify_line CHARACTER_CODES justify line
  = replicate (offset justify (String.length line)) None
      ++ (Some <$> convert_text_to_codes CHARACTER_CODES line)
      ++ replicate (22 - String.length line - offset justify (String.length line)) None.
Proof.
  intros Hlen. unfold Py.len in Hlen. set (n := String.length line) in *.
  pose proof (half_le (22 - n)) as Hhalf.
  unfold justify_line, Py.repeat. rewrite llen_codes. unfold Py.len. fold n.
  replace (22 - Z.of_nat n) with (Z.of_nat (22 - n)) by lia.
  destruct justify; simpl offset.
  - rewrite Nat2Z.id, Nat.sub_0_r. reflexivity.
  - rewrite Nat2Z.id, Nat.sub_diag. simpl. now rewrite app_nil_r.
  - rewrite half_Z, Nat2Z.id.
    now replace (Z.to_nat (Z.of_nat (22 - n) - Z.of_nat ((22 - n) / 2)))
      with (22 - n - (22 - n) / 2)%nat by lia.
Qed.

Lemma offset_fits (justify : justification) (n : nat) :
  (n <= 22)%nat -> (offset justify n + n <= 22)%nat.
Proof.
  intros Hn. pose proof (half_le (22 - n)). destruct justify; unfold offset; lia.
Qed.

(** The cell of column [c] of a justified line: the code of the character
    that the layout puts there, or the transparent marker. *)
Lemma justify_line_lookup (CHARACTER_CODES : gmap string Z) (justify : justification)
    (line : string) (c : nat) :
  Py.len line <= 22 -> (c < 22)%nat ->
  justify_line CHARACTER_CODES justify line !! c
  = Some (if decide (offset justify (String.length line) <= c)%nat
          then char_code CHARACTER_CODES
                 <$> chars line !! (c - offset justify (String.length line))%nat
          else None).
Proof.
  intros Hlen Hc. rewrite justify_line_shape by assumption.
  unfold Py.len in Hlen. set (n := String.length line) in *.
  pose proof (offset_fits justify n ltac:(lia)) as Hoff.
  set (off := offset justify n) in *.
  pose proof (length_codes CHARACTER_CODES line) as Hcodes. fold n in Hcodes.
  destruct (decide (off <= c)%nat) as [Hge|Hlt].
  - rewrite lookup_app_r by (rewrite length_replicate; lia). rewrite length_replicate.
    unfold convert_text_to_codes. fold (chars line).
    destruct (decide (c - off < n)%nat) as [Hin|Hout].
    + rewrite lookup_app_l by (rewrite !length_fmap, length_chars; fold n; lia).
      rewrite !list_lookup_fmap.
      destruct (lookup_lt_is_Some_2 (chars line) (c - off)) as [ch Hch];
        [rewrite length_chars; fold n; lia|].
      now rewrite Hch.
    + rewrite lookup_app_r by (rewrite !length_fmap, length_chars; fold n; lia).
      rewrite !length_fmap, length_chars. fold n.
      rewrite lookup_replicate_2 by lia.
      rewrite (lookup_ge_None_2 (chars line)) by (rewrite length_chars; fold n; lia).
      reflexivity.
  - rewrite lookup_app_l by (rewrite length_replicate; lia).
    now rewrite lookup_replicate_2 by lia.
Qed.

Lemma center_vertically_shape (justify : justification) (lines : list (list (option Z))) :
  (length lines <= 6)%nat ->
  center_vertically justify lines
  = replicate (top justify (length lines)) (replicate 22 None) ++ lines
      ++ replicate (match justify with
                    | JCenter => 6 - length lines - top justify (length lines)
                    | _ => 0
                    end) (replicate 22 None).
Proof.
  intros Hlen. destruct justify; unfold top; try (simpl; now rewrite app_nil_r).
  unfold center_vertically, Py.repeat, Py.llen.
  pose proof (half_le (6 - length lines)) as Hhalf.
  replace (6 - Z.of_nat (length lines)) with (Z.of_nat (6 - length lines)) by lia.
  rewrite half_Z, Nat2Z.id.
  replace (Z.to_nat (Z.of_nat (6 - length lines) - Z.of_nat ((6 - length lines) / 2)))
    with (6 - length lines - (6 - length lines) / 2)%nat by lia.
  reflexivity.
Qed.

Lemma fits_line (message line : string) (i : nat) :
  fits message = true -> take 6 (wrap message) !! i = Some line -> Py.len line <= 22.
Proof.
  unfold fits. intros Hfit Hline. rewrite forallb_forall in Hfit.
  apply Z.leb_le, Hfit, list_elem_of_In. eapply list_elem_of_lookup_2, Hline.
Qed.

(** Row [r] of the justified lines is the justified line [r - top] inside
    the text, and a transparent row, or no row at all, outside it. *)
Lemma justified_lines_row (CHARACTER_CODES : gmap string Z) (message : string)
    (justify : justification) (r : nat) :
  let lines := take 6 (wrap message) in
  let t := top justify (length lines) in
  match (if decide (t <= r)%nat then lines !! (r - t)%nat else None) with
  | Some line =>
      justified_lines CHARACTER_CODES message justify !! r
      = Some (justify_line CHARACTER_CODES justify line)
  | None =>
      justified_lines CHARACTER_CODES message justify !! r = None
      \/ justified_lines CHARACTER_CODES message justify !! r = Some (replicate 22 None)
  end.
Proof.
  intros lines t. unfold justified_lines. fold lines.
  assert (Hn : (length lines <= 6)%nat) by (unfold lines; rewrite length_take; lia).
  rewrite center_vertically_shape by (now rewrite length_fmap).
  rewrite length_fmap. fold t.
  set (b := match justify with JCenter => (6 - length lines - t)%nat | _ => 0%nat end).
  destruct (decide (t <= r)%nat) as [Hge|Hlt].
  - rewrite lookup_app_r by (rewrite length_replicate; lia). rewrite length_replicate.
    destruct (lines !! (r - t)%nat) as [line|] eqn:Hline.
    + rewrite lookup_app_l by (rewrite length_fmap; eapply lookup_lt_Some, Hline).
      now rewrite list_lookup_fmap, Hline.
    + apply lookup_ge_None in Hline.
      rewrite lookup_app_r by (rewrite length_fmap; lia). rewrite length_fmap.
      destruct (decide (r - t - length lines < b)%nat) as [Hin|Hout].
      * right. now apply lookup_replicate_2.
      * left. apply lookup_ge_None. rewrite length_replicate. lia.
  - right. rewrite lookup_app_l by (rewrite length_replicate; lia).
    apply lookup_replicate_2. lia.
Qed.

(** Column [c] of row [r] after the overlay: the code of the character of
    the layout, or the cell of the background row. *)
Lemma painted_row (CHARACTER_CODES : gmap string Z) (message : string)
    (justify : justification) (row : list Z) (r c : nat) :
  fits message = true -> length row = 22%nat -> (c < 22)%nat ->
  match justified_lines CHARACTER_CODES message justify !! r with
  | Some line => paint row line
  | None => row
  end !! c
  = match text_char message justify r c with
    | Some ch => Some (char_code CHARACTER_CODES ch)
    | None => row !! c
    end.
Proof.
  intros Hfit Hrow Hc.
  pose proof (justified_lines_row CHARACTER_CODES message justify r) as Hjl.
  unfold text_char. cbv zeta in *.
  set (lines := take 6 (wrap message)) in *.
  set (t := top justify (length lines)) in *.
  destruct (decide (t <= r)%nat) as [Hge|Hlt].
  - destruct (lines !! (r - t)%nat) as [line|] eqn:Hline.
    + rewrite Hjl.
      pose proof (fits_line message line (r - t) Hfit Hline) as Hlen.
      pose proof (justify_line_lookup CHARACTER_CODES justify line c Hlen Hc) as Hcell.
      destruct (decide (offset justify (String.length line) <= c)%nat) as [Hoff|Hoff].
      * destruct (chars line !! (c - offset justify (String.length line))%nat) as [ch|];
          simpl in Hcell.
        -- apply paint_lookup_code; [lia|assumption].
        -- now apply paint_lookup_transparent.
      * now apply paint_lookup_transparent.
    + destruct Hjl as [-> | ->]; [reflexivity|]. now rewrite paint_transparent.
  - destruct Hjl as [-> | ->]; [reflexivity|]. now rewrite paint_transparent.
Qed.

Section Cells.

Variable CHARACTER_CODES : gmap string Z.

(** On a message that fits, every cell of the result is the code of the
    character that the layout puts there, and the background cell where the
    layout puts none. *)
Lemma cells_of_composition (message : string) (color : option string)
    (justify : justification) (gradient : option (string * string)) :
  fits message = true ->
  exists background m,
    background_matrix color gradient = Ok background
    /\ create_message_matrix CHARACTER_CODES message color justify gradient = Ok m
    /\ well_shaped background
    /\ forall r c : nat, (r < 6)%nat -> (c < 22)%nat ->
         cell m r c = match text_char message justify r c with
                      | Some ch => Some (char_code CHARACTER_CODES ch)
                      | None => cell background r c
                      end.
Proof.
  intros Hfit.
  destruct (background_matrix_ok color gradient) as (bg & Hbg & Hshape).
  destruct (create_message_matrix_returns CHARACTER_CODES message color justify gradient Hfit)
    as (m & Hm & _).
  exists bg, m. split; [assumption|]. split; [assumption|]. split; [assumption|].
  intros r c Hr Hc.
  unfold create_message_matrix in Hm. rewrite Hbg in Hm. cbn [bind] in Hm.
  pose proof (justified_lines_length CHARACTER_CODES message justify) as Hlen.
  pose proof (justified_lines_fit CHARACTER_CODES message justify Hfit) as Hall.
  assert (Hi : (0 + length (justified_lines CHARACTER_CODES message justify) <= 6)%nat)
    by lia.
  unfold cell. rewrite (overlay_lookup _ bg m 0 r Hshape Hi Hall Hm).
  destruct (well_shaped_lookup bg r Hshape Hr) as (row & Hrow & Hrowlen).
  rewrite Hrow. cbn [fmap option_fmap option_map mbind option_bind].
  rewrite decide_True by lia. rewrite Nat.sub_0_r.
  now apply painted_row.
Qed.

End Cells.

(** ** Letter case *)

Lemma lower_char_idempotent (c : ascii) : Py.lower_char (Py.lower_char c) = Py.lower_char c.
Proof. destruct c as [[] [] [] [] [] [] [] []]; reflexivity. Qed.

Lemma lower_idempotent (s : string) : Py.lower (Py.lower s) = Py.lower s.
Proof.
  induction s as [|c s IH]; simpl; [reflexivity|].
  now rewrite lower_char_idempotent, IH.
Qed.

Lemma truthy_lower (s : string) : Py.truthy (Py.lower s) = Py.truthy s.
Proof. now destruct s. Qed.

Lemma char_code_lower (CHARACTER_CODES : gmap string Z) (c : ascii) :
  char_code CHARACTER_CODES (Py.lower_char c) = char_code CHARACTER_CODES c.
Proof. destruct c as [[] [] [] [] [] [] [] []]; reflexivity. Qed.

(** ** The range of the codes *)

Lemma ramp_range (a b row col : Z) :
  0 <= row < 6 -> 0 <= col < 22 ->
  Z.min a b <= ramp a b row col <= Z.max a b.
Proof.
  intros Hrow Hcol. unfold ramp.
  set (k := row * 22 + col). assert (Hk : 0 <= k <= 131) by (unfold k; lia).
  pose proof (Z.div_mod (k * (b - a)) 131 ltac:(lia)) as Hdiv.
  pose proof (Z.mod_pos_bound (k * (b - a)) 131 ltac:(lia)) as Hmod.
  destruct (Z.le_gt_cases a b) as [Hle|Hgt].
  - assert (0 <= k * (b - a) <= 131 * (b - a)) by nia. lia.
  - assert (131 * (b - a) <= k * (b - a) <= 0) by nia. lia.
Qed.

Lemma fill_matrix_cell (z : Z) (row col : nat) (v : Z) :
  cell ((fun _ => (fun _ => z) <$> Py.range 22) <$> Py.range 6) row col = Some v -> v = z.
Proof.
  unfold cell, Py.range. intros Hcell.
  destruct (decide (row < 6)%nat) as [Hrow|Hrow].
  - rewrite list_lookup_fmap, lookup_seqZ_lt in Hcell by lia.
    cbn [fmap option_fmap option_map mbind option_bind] in Hcell.
    destruct (decide (col < 22)%nat) as [Hcol|Hcol].
    + rewrite list_lookup_fmap, lookup_seqZ_lt in Hcell by lia. now inversion Hcell.
    + rewrite list_lookup_fmap, lookup_seqZ_ge in Hcell by lia. discriminate.
  - rewrite list_lookup_fmap, lookup_seqZ_ge in Hcell by lia. discriminate.
Qed.

Lemma default_fill_code_range (color : option string) :
  default_fill_code color = 0 \/ 63 <= default_fill_code color <= 70.
Proof.
  destruct color as [name|]; simpl; [|now left].
  destruct (Py.truthy name); [|now left].
  unfold Py.get. destruct (COLOR_CODES !! Py.lower name) as [code|] eqn:E; simpl.
  - right. eauto using COLOR_CODES_range.
  - now left.
Qed.

Lemma background_cell_range (color : option string) (gradient : option (string * string))
    (background : matrix) (r c : nat) (v : Z) :
  background_matrix color gradient = Ok background ->
  cell background r c = Some v -> v = 0 \/ 63 <= v <= 70.
Proof.
  destruct gradient as [[start_color end_color]|]; simpl; intros Hbg Hcell.
  - rewrite create_gradient_background_ramp in Hbg. inversion Hbg; subst. clear Hbg.
    apply ramp_matrix_cell_inv in Hcell as (Hr & Hc & ->).
    pose proof (color_or_black_range (Py.lower start_color)).
    pose proof (color_or_black_range (Py.lower end_color)).
    pose proof (ramp_range (Py.get COLOR_CODES (Py.lower start_color) 70)
                  (Py.get COLOR_CODES (Py.lower end_color) 70)
                  (Z.of_nat r) (Z.of_nat c) ltac:(lia) ltac:(lia)).
    right. lia.
  - inversion Hbg; subst. clear Hbg. apply fill_matrix_cell in Hcell. subst.
    apply default_fill_code_range.
Qed.

Lemma char_code_value (CHARACTER_CODES : gmap string Z) (c : ascii) :
  (exists key, CHARACTER_CODES !! key = Some (char_code CHARACTER_CODES c))
  \/ char_code CHARACTER_CODES c = 0.
Proof.
  unfold char_code. case_decide; [|now right].
  destruct (Py.upper_char c) as [key|]; [|now right].
  unfold Py.get. destruct (CHARACTER_CODES !! key) as [code|] eqn:E; simpl; eauto.
Qed.

Lemma cell_in_shape (m : matrix) (r c : nat) (v : Z) :
  well_shaped m -> cell m r c = Some v -> (r < 6)%nat /\ (c < 22)%nat.
Proof.
  intros [Hlen Hrows] Hcell. unfold cell in Hcell.
  destruct (m !! r) as [row|] eqn:Hrow; [|discriminate]. simpl in Hcell.
  split.
  - rewrite <- Hlen. eapply lookup_lt_Some, Hrow.
  - rewrite Forall_forall in Hrows.
    rewrite <- (Hrows row) by (eapply list_elem_of_lookup_2, Hrow).
    eapply lookup_lt_Some, Hcell.
Qed.

(** One word that fits is one line. *)
Lemma wrap_one_word (w : string) :
  is_word w = true -> Py.len w <= 22 -> take 6 (wrap w) = [w].
Proof.
  intros Hw Hlen. unfold wrap. rewrite split_word by assumption.
  rewrite wrap_words_one_line; [reflexivity|discriminate| |assumption].
  repeat constructor. now apply is_word_truthy.
Qed.

(** * Further properties, as theorems *)

(** X1. The composer either returns a matrix of 6 rows of 22 cells or raises
    [IndexError], and it raises exactly when one of the first six wrapped
    lines is longer than 22 characters. *)
Theorem composer_outcome (CHARACTER_CODES : gmap string Z) (message : string)
    (color : option string) (justify : justification) (gradient : option (string * string)) :
  if fits message
  then exists m,
         create_message_matrix CHARACTER_CODES message color justify gradient = Ok m
         /\ length m = 6%nat
         /\ Forall (fun row : list Z => length row = 22%nat) m
  else create_message_matrix CHARACTER_CODES message color justify gradient
       = Raise IndexError.
Proof.
  destruct (fits message) eqn:Hfit.
  - destruct (create_message_matrix_returns CHARACTER_CODES message color justify gradient
                Hfit) as (m & Hm & Hlen & Hrows).
    eauto.
  - now apply create_message_matrix_raises.
Qed.

(** X2. On a message whose retained lines fit, the cell at row [r] and
    column [c] of the result is the code of the character that the layout
    puts there (line [r - top], character [c - offset]), and the cell of the
    background where the layout puts no character. *)
Theorem composed_cells (CHARACTER_CODES : gmap string Z) (message : string)
    (color : option string) (justify : justification) (gradient : option (string * string)) :
  fits message = true ->
  exists background m,
    background_matrix color gradient = Ok background
    /\ create_message_matrix CHARACTER_CODES message color justify gradient = Ok m
    /\ forall r c : nat, (r < 6)%nat -> (c < 22)%nat ->
         cell m r c = match text_char message justify r c with
                      | Some ch => Some (char_code CHARACTER_CODES ch)
                      | None => cell background r c
                      end.
Proof.
  intros Hfit.
  destruct (cells_of_composition CHARACTER_CODES message color justify gradient Hfit)
    as (bg & m & Hbg & Hm & _ & Hcells).
  eauto.
Qed.

Lemma composed_cells_witness :
  exists background m,
    background_matrix (Some "green") None = Ok background
    /\ create_message_matrix ∅ "GOOD MORNING" (Some "green") JCenter None = Ok m
    /\ forall r c : nat, (r < 6)%nat -> (c < 22)%nat ->
         cell m r c = match text_char "GOOD MORNING" JCenter r c with
                      | Some ch => Some (char_code ∅ ch)
                      | None => cell background r c
                      end.
Proof. apply (composed_cells ∅ "GOOD MORNING"). reflexivity. Defined.

(** X3. The wrap loses no word and keeps their order: the words of the
    wrapped lines, line after line, are the words of the message. *)
Theorem wrap_keeps_words (message : string) :
  concat (Py.split <$> wrap message) = Py.split message.
Proof. apply (wrap_words_words (Py.split message)), split_words. Qed.

(** X4. A wrapped line is at most 22 characters long, unless it is a single
    word of the message that is itself longer than 22 characters. *)
Theorem wrap_line_widths (message line : string) :
  line ∈ wrap message ->
  Py.len line <= 22 \/ (22 < Py.len line /\ line ∈ Py.split message).
Proof.
  intros Hin. destruct (decide (Py.len line <= 22)) as [Hle|Hgt]; [now left|].
  right. split; [lia|].
  destruct (wrap_words_widths _ _ Hin) as [Hle|Hword]; [lia|assumption].
Qed.

Lemma wrap_line_widths_witness :
  Py.len "HELLO WORLD" <= 22
  \/ (22 < Py.len "HELLO WORLD" /\ "HELLO WORLD" ∈ Py.split "HELLO WORLD").
Proof.
  apply (wrap_line_widths "HELLO WORLD" "HELLO WORLD").
  vm_compute. apply list_elem_of_here.
Defined.

(** X5. When every word of the message has at most 22 characters the
    composer returns a matrix of 6 rows of 22 cells. *)
Theorem short_words_compose (CHARACTER_CODES : gmap string Z) (message : string)
    (color : option string) (justify : justification) (gradient : option (string * string)) :
  Forall (fun w => Py.len w <= 22) (Py.split message) ->
  exists m,
    create_message_matrix CHARACTER_CODES message color justify gradient = Ok m
    /\ length m = 6%nat
    /\ Forall (fun row : list Z => length row = 22%nat) m.
Proof.
  intros Hws.
  destruct (create_message_matrix_returns CHARACTER_CODES message color justify gradient
              (words_fit message Hws)) as (m & Hm & Hlen & Hrows).
  eauto.
Qed.

Lemma short_words_compose_witness :
  exists m,
    create_message_matrix ∅ "HELLO WORLD" None JCenter (Some ("red", "blue")) = Ok m
    /\ length m = 6%nat
    /\ Forall (fun row : list Z => length row = 22%nat) m.
Proof.
  apply (short_words_compose ∅ "HELLO WORLD").
  apply (bool_decide_unpack _). vm_compute. exact I.
Defined.

(** X6. Every wrapped line is non-empty, but for one case: when the first
    word of the message is longer than 22 characters the wrap starts with an
    empty line. *)
Theorem wrap_first_line (message w : string) (ws : list string) :
  Py.split message = w :: ws ->
  exists rest,
    wrap message = (if decide (Py.len w <= 22) then rest else "" :: rest)
    /\ Forall (fun line => Py.truthy line = true) rest.
Proof.
  intros Hsplit. unfold wrap. rewrite Hsplit. apply wrap_words_first.
  rewrite <- Hsplit. apply split_truthy.
Qed.

Lemma wrap_first_line_witness :
  exists rest,
    wrap "AAAAAAAAAAAAAAAAAAAAAAAAA B"
    = (if decide (Py.len "AAAAAAAAAAAAAAAAAAAAAAAAA" <= 22) then rest else "" :: rest)
    /\ Forall (fun line => Py.truthy line = true) rest.
Proof.
  apply (wrap_first_line "AAAAAAAAAAAAAAAAAAAAAAAAA B" "AAAAAAAAAAAAAAAAAAAAAAAAA" ["B"]).
  reflexivity.
Defined.

(** X7. On the texts of the model, whose characters are code points below
    256, the encoding ignores the case of the letters: a text and its lower
    case form have the same codes, for every table over such strings. *)
Theorem encoding_ignores_case (CHARACTER_CODES : gmap string Z) (text : string) :
  convert_text_to_codes CHARACTER_CODES (Py.lower text)
  = convert_text_to_codes CHARACTER_CODES text.
Proof.
  unfold convert_text_to_codes. induction text as [|c text IH]; [reflexivity|].
  change (char_code CHARACTER_CODES (Py.lower_char c)
            :: (char_code CHARACTER_CODES <$> String.list_ascii_of_string (Py.lower text))
          = char_code CHARACTER_CODES c
            :: (char_code CHARACTER_CODES <$> String.list_ascii_of_string text)).
  now rewrite char_code_lower, IH.
Qed.

(** X8. Colour names are read without regard to case, in the solid fill
    and in the gradient. *)
Theorem color_names_ignore_case (name start_color end_color : string) :
  background_matrix (Some (Py.lower name)) None = background_matrix (Some name) None
  /\ create_gradient_background (Py.lower start_color) (Py.lower end_color)
     = create_gradient_background start_color end_color.
Proof.
  split.
  - simpl. now rewrite truthy_lower, lower_idempotent.
  - unfold create_gradient_background. now rewrite !lower_idempotent.
Qed.

(** X9. Every cell of a gradient lies between the start code and the end
    code, whatever their order, and so between 63 and 70. *)
Theorem gradient_range (start_color end_color : string) :
  exists m,
    create_gradient_background start_color end_color = Ok m
    /\ forall (r c : nat) (v : Z),
         cell m r c = Some v ->
         Z.min (Py.get COLOR_CODES (Py.lower start_color) 70)
               (Py.get COLOR_CODES (Py.lower end_color) 70) <= v
         /\ v <= Z.max (Py.get COLOR_CODES (Py.lower start_color) 70)
                       (Py.get COLOR_CODES (Py.lower end_color) 70)
         /\ 63 <= v <= 70.
Proof.
  rewrite create_gradient_background_ramp.
  eexists. split; [reflexivity|]. intros r c v Hcell.
  apply ramp_matrix_cell_inv in Hcell as (Hr & Hc & ->).
  pose proof (color_or_black_range (Py.lower start_color)).
  pose proof (color_or_black_range (Py.lower end_color)).
  pose proof (ramp_range (Py.get COLOR_CODES (Py.lower start_color) 70)
                (Py.get COLOR_CODES (Py.lower end_color) 70)
                (Z.of_nat r) (Z.of_nat c) ltac:(lia) ltac:(lia)).
  lia.
Qed.

(** X10. When the end code is below the start code the cells of the
    gradient never increase along the reading order. *)
Theorem gradient_decreasing (start_color end_color : string) :
  Py.get COLOR_CODES (Py.lower end_color) 70 < Py.get COLOR_CODES (Py.lower start_color) 70 ->
  exists m,
    create_gradient_background start_color end_color = Ok m
    /\ forall (r1 c1 r2 c2 : nat) (v1 v2 : Z),
         cell m r1 c1 = Some v1 -> cell m r2 c2 = Some v2 ->
         (r1 * 22 + c1 <= r2 * 22 + c2)%nat -> v2 <= v1.
Proof.
  intros Hlt. rewrite create_gradient_background_ramp.
  eexists. split; [reflexivity|].
  intros r1 c1 r2 c2 v1 v2 H1 H2 Hpos.
  apply ramp_matrix_cell_inv in H1 as (_ & _ & ->).
  apply ramp_matrix_cell_inv in H2 as (_ & _ & ->).
  unfold ramp. apply Z.add_le_mono_l, Z.div_le_mono; [lia|]. nia.
Qed.

Lemma gradient_decreasing_witness :
  exists m,
    create_gradient_background "white" "orange" = Ok m
    /\ forall (r1 c1 r2 c2 : nat) (v1 v2 : Z),
         cell m r1 c1 = Some v1 -> cell m r2 c2 = Some v2 ->
         (r1 * 22 + c1 <= r2 * 22 + c2)%nat -> v2 <= v1.
Proof. apply (gradient_decreasing "white" "orange"). reflexivity. Defined.

(** X11. On a message that fits, every cell of the result is a code of the
    character table, 0, or a colour code between 63 and 70; so with a table
    of codes that are not negative no cell is negative. *)
Theorem cell_values (CHARACTER_CODES : gmap string Z) (message : string)
    (color : option string) (justify : justification) (gradient : option (string * string)) :
  fits message = true ->
  exists m,
    create_message_matrix CHARACTER_CODES message color justify gradient = Ok m
    /\ forall (r c : nat) (v : Z),
         cell m r c = Some v ->
         ((exists key, CHARACTER_CODES !! key = Some v) \/ v = 0 \/ 63 <= v <= 70)
         /\ (map_Forall (fun _ code => 0 <= code) CHARACTER_CODES -> 0 <= v).
Proof.
  intros Hfit.
  destruct (cells_of_composition CHARACTER_CODES message color justify gradient Hfit)
    as (bg & m & Hbg & Hm & _ & Hcells).
  destruct (create_message_matrix_returns CHARACTER_CODES message color justify gradient
              Hfit) as (m' & Hm' & Hshape).
  assert (m' = m) as -> by congruence.
  exists m. split; [assumption|]. intros r c v Hcell.
  assert (Hv : (exists key, CHARACTER_CODES !! key = Some v) \/ v = 0 \/ 63 <= v <= 70).
  { destruct (cell_in_shape m r c v Hshape Hcell) as [Hr Hc].
    rewrite (Hcells r c Hr Hc) in Hcell.
    destruct (text_char message justify r c) as [ch|].
    - inversion Hcell. destruct (char_code_value CHARACTER_CODES ch); auto.
    - right. exact (background_cell_range color gradient bg r c v Hbg Hcell). }
  split; [exact Hv|]. intros Htable.
  destruct Hv as [[key Hkey]|[->|Hcolor]]; [exact (Htable _ _ Hkey)|lia|lia].
Qed.

Lemma cell_values_witness :
  exists m,
    create_message_matrix {[ "A" := 1 ]} "A" (Some "red") JLeft None = Ok m
    /\ forall (r c : nat) (v : Z),
         cell m r c = Some v ->
         ((exists key, ({[ "A" := 1 ]} : gmap string Z) !! key = Some v)
          \/ v = 0 \/ 63 <= v <= 70)
         /\ (map_Forall (fun _ code => 0 <= code) ({[ "A" := 1 ]} : gmap string Z) -> 0 <= v).
Proof. apply (cell_values {[ "A" := 1 ]} "A"). reflexivity. Defined.

(** X12. The rows above and below the block of text are the rows of the
    background: the block of the [n] retained lines starts at row [top],
    which is 0 for left and right and [(6 - n) div 2] for center. *)
Theorem rows_outside_text (CHARACTER_CODES : gmap string Z) (message : string)
    (color : option string) (justify : justification) (gradient : option (string * string)) :
  fits message = true ->
  exists background m,
    background_matrix color gradient = Ok background
    /\ create_message_matrix CHARACTER_CODES message color justify gradient = Ok m
    /\ forall r c : nat, (r < 6)%nat -> (c < 22)%nat ->
         (r < top justify (length (take 6 (wrap message)))
          \/ top justify (length (take 6 (wrap message))) + length (take 6 (wrap message)) <= r)%nat ->
         cell m r c = cell background r c.
Proof.
  intros Hfit.
  destruct (cells_of_composition CHARACTER_CODES message color justify gradient Hfit)
    as (bg & m & Hbg & Hm & _ & Hcells).
  exists bg, m. split; [assumption|]. split; [assumption|].
  intros r c Hr Hc Hout. rewrite (Hcells r c Hr Hc).
  unfold text_char. cbv zeta.
  destruct (decide (top justify (length (take 6 (wrap message))) <= r)%nat) as [Hge|Hlt];
    [|reflexivity].
  rewrite (lookup_ge_None_2 (take 6 (wrap message))) by lia.
  reflexivity.
Qed.

Lemma rows_outside_text_witness :
  exists background m,
    background_matrix (Some "blue") None = Ok background
    /\ create_message_matrix ∅ "GOOD MORNING TO EVERYONE HERE" (Some "blue") JCenter None
       = Ok m
    /\ forall r c : nat, (r < 6)%nat -> (c < 22)%nat ->
         (r < top JCenter (length (take 6 (wrap "GOOD MORNING TO EVERYONE HERE")))
          \/ top JCenter (length (take 6 (wrap "GOOD MORNING TO EVERYONE HERE")))
             + length (take 6 (wrap "GOOD MORNING TO EVERYONE HERE")) <= r)%nat ->
         cell m r c = cell background r c.
Proof.
  apply (rows_outside_text ∅ "GOOD MORNING TO EVERYONE HERE" (Some "blue") JCenter None).
  reflexivity.
Defined.

(** X13. For a message of one word that fits, left justification puts the
    code of its character [j] at column [j] of row 0 and right
    justification puts the same code at column [22 - len + j]. *)
Theorem justify_mirror (CHARACTER_CODES : gmap string Z) (w : string) (j : nat) (ch : ascii)
    (color : option string) (gradient : option (string * string)) :
  is_word w = true -> Py.len w <= 22 -> chars w !! j = Some ch ->
  exists on_left on_right,
    create_message_matrix CHARACTER_CODES w color JLeft gradient = Ok on_left
    /\ create_message_matrix CHARACTER_CODES w color JRight gradient = Ok on_right
    /\ cell on_left 0 j = Some (char_code CHARACTER_CODES ch)
    /\ cell on_right 0 (22 - String.length w + j) = Some (char_code CHARACTER_CODES ch).
Proof.
  intros Hw Hlen Hch.
  pose proof (wrap_one_word w Hw Hlen) as Hwrap.
  assert (Hfit : fits w = true).
  { unfold fits. rewrite Hwrap. simpl. rewrite andb_true_r. now apply Z.leb_le. }
  assert (Hj : (j < String.length w)%nat).
  { rewrite <- length_chars. eapply lookup_lt_Some, Hch. }
  unfold Py.len in Hlen.
  destruct (cells_of_composition CHARACTER_CODES w color JLeft gradient Hfit)
    as (bg1 & m1 & _ & Hm1 & _ & Hcells1).
  destruct (cells_of_composition CHARACTER_CODES w color JRight gradient Hfit)
    as (bg2 & m2 & _ & Hm2 & _ & Hcells2).
  exists m1, m2. split; [assumption|]. split; [assumption|]. split.
  - rewrite Hcells1 by lia. unfold text_char. rewrite Hwrap. cbn [length top offset].
    rewrite decide_True by lia. rewrite Nat.sub_0_r. cbn [lookup list_lookup].
    rewrite decide_True by lia. now rewrite Nat.sub_0_r, Hch.
  - rewrite Hcells2 by lia. unfold text_char. rewrite Hwrap. cbn [length top offset].
    rewrite decide_True by lia. rewrite Nat.sub_0_r. cbn [lookup list_lookup].
    rewrite decide_True by lia.
    replace (22 - String.length w + j - (22 - String.length w))%nat with j by lia.
    now rewrite Hch.
Qed.

Lemma justify_mirror_witness :
  exists on_left on_right,
    create_message_matrix ∅ "HELLO" None JLeft None = Ok on_left
    /\ create_message_matrix ∅ "HELLO" None JRight None = Ok on_right
    /\ cell on_left 0 1 = Some (char_code ∅ "E")
    /\ cell on_right 0 (22 - String.length "HELLO" + 1) = Some (char_code ∅ "E").
Proof.
  apply (justify_mirror ∅ "HELLO" 1 "E" None None).
  - reflexivity.
  - vm_compute. discriminate.
  - reflexivity.
Defined.
